(** * go-vss: the build pipeline of the static site generator

    A shallow embedding of the [Builder] of package [vss] (the file that
    declares [Builder], [Run], [renderContent], [lookUpTemplate],
    [replaceExt], [copyStatic], ...), with the properties of its
    specification stated and proved over it.

    Go strings and byte slices are sequences of bytes: both are modelled
    by [string] (a list of 8-bit [ascii] characters).  Go maps are
    [gmap]s.  Functions that touch the file system thread an explicit
    world. *)

From Stdlib Require Import Ascii String List ZArith Lia Bool.
From stdpp Require Import base option list strings gmap fin_maps sorting.

Local Open Scope string_scope.

(** ** Package [strings] (the functions the builder calls) *)

Module strings.

Definition chars (s : string) : list ascii := list_ascii_of_string s.
Definition of_chars (l : list ascii) : string := string_of_list_ascii l.

(** [strings.HasPrefix]. *)
Definition HasPrefix (s pre : string) : bool := String.prefix pre s.

(** [strings.HasSuffix]: [len(s) >= len(suffix) &&
    s[len(s)-len(suffix):] == suffix]. *)
Definition HasSuffix (s suffix : string) : bool :=
  (String.length suffix <=? String.length s)%nat &&
  String.eqb
    (String.substring (String.length s - String.length suffix)
                      (String.length suffix) s)
    suffix.

(** [strings.TrimSuffix]. *)
Definition TrimSuffix (s suffix : string) : string :=
  if HasSuffix s suffix
  then String.substring 0 (String.length s - String.length suffix) s
  else s.

(** Lower-casing of one byte of an ASCII string: ['A'..'Z'] are moved by
    ['a' - 'A'], every other byte is kept. *)
Definition lower_byte (c : ascii) : ascii :=
  let n := nat_of_ascii c in
  if (65 <=? n)%nat && (n <=? 90)%nat then ascii_of_nat (n + 32) else c.

(** [strings.ToLower] on its ASCII path.  On a string that holds a byte
    above 127 the Go function maps Unicode code points instead; no code
    point outside ASCII lower-cases to ['.'], ['m'] or ['d'], and the
    builder only compares the result with [".md"]. *)
Fixpoint ToLower (s : string) : string :=
  match s with
  | EmptyString => EmptyString
  | String c s' => String (lower_byte c) (ToLower s')
  end.

(** The test [strings.ToLower] starts with: every byte of the string is
    below [utf8.RuneSelf], so the string is lower-cased byte by byte. *)
Definition isASCII (s : string) : bool :=
  forallb (fun c => (nat_of_ascii c <? 128)%nat) (chars s).

(** [strings.ReplaceAll] for a one-byte pattern and replacement. *)
Fixpoint ReplaceByte (old new : ascii) (s : string) : string :=
  match s with
  | EmptyString => EmptyString
  | String c s' =>
      String (if Ascii.eqb c old then new else c) (ReplaceByte old new s')
  end.

(** [strings.Join]. *)
Definition Join (elems : list string) (sep : string) : string :=
  String.concat sep elems.

(** [slices.Contains] on strings. *)
Definition Contains (l : list string) (x : string) : bool :=
  existsb (String.eqb x) l.

End strings.

(** ** Package [path/filepath] *)

(** What differs between platforms at the level of single bytes:
    [filepath.Separator] and [os.IsPathSeparator].  On Unix ['/'] is the
    separator; on Windows the backslash is, and ['/'] is accepted as a
    separator too. *)
Inductive GOOS := Unix | Windows.
Existing Class GOOS.

Definition Separator {goos : GOOS} : ascii :=
  match goos with
  | Unix => "/"%char
  | Windows => "\"%char
  end.

Definition IsPathSeparator {goos : GOOS} (c : ascii) : bool :=
  match goos with
  | Unix => Ascii.eqb c "/"%char
  | Windows => Ascii.eqb c "\"%char || Ascii.eqb c "/"%char
  end.

(** The functions whose Go source is the same on every platform. *)
Module filepath.
Section Generic.
Context {goos : GOOS}.

(** The loop of [filepath.Ext], reading the path from its last byte
    towards the first: [rest] is [path[:i+1]] reversed and [acc] is
    [path[i+1:]]. *)
Fixpoint ext_scan (rest acc : list ascii) : list ascii :=
  match rest with
  | [] => []
  | c :: rest' =>
      if IsPathSeparator c then []
      else if Ascii.eqb c "."%char then c :: acc
      else ext_scan rest' (c :: acc)
  end.

(** [filepath.Ext]: the suffix beginning at the final dot in the final
    element of the path; empty if there is no dot. *)
Definition Ext (path : string) : string :=
  strings.of_chars (ext_scan (rev (strings.chars path)) []).

(** [filepath.ToSlash]. *)
Definition ToSlash (path : string) : string :=
  if Ascii.eqb Separator "/"%char then path
  else strings.ReplaceByte Separator "/"%char path.

End Generic.
End filepath.

(** What the platform decides for whole paths. *)
Class FilePath := {
  Join : list string → string;   (* filepath.Join(elem...) *)
  Dir : string → string;         (* filepath.Dir *)
  Base : string → string;        (* filepath.Base *)
}.

(** [path/filepath] on Unix, after the Go implementation: no volume names,
    ['/'] the only separator. *)
Module unix.

(** The elements of a path between its separators. *)
Fixpoint split_sep (s : string) : list string :=
  match s with
  | EmptyString => [EmptyString]
  | String c s' =>
      match split_sep s' with
      | [] => [String c EmptyString]
      | e :: es =>
          if Ascii.eqb c "/"%char then EmptyString :: e :: es
          else String c e :: es
      end
  end.

(** One round of the loop of [filepath.Clean] on the next element; [out]
    holds the elements written so far, last one first.  Leading [..]
    elements of an unrooted path stay in [out] and cannot be removed
    (the [dotdot] mark of the Go code). *)
Definition clean_step (rooted : bool) (out : list string) (e : string)
  : list string :=
  if String.eqb e EmptyString || String.eqb e "." then out
  else if String.eqb e ".." then
    match out with
    | top :: rest => if String.eqb top ".." then e :: out else rest
    | [] => if rooted then [] else [e]
    end
  else e :: out.

(** [filepath.Clean]. *)
Definition Clean (path : string) : string :=
  match path with
  | EmptyString => "."
  | String c _ =>
      let rooted := Ascii.eqb c "/"%char in
      let out := fold_left (clean_step rooted) (split_sep path) [] in
      let body := String.concat "/" (rev out) in
      if rooted then "/" ++ body
      else if String.eqb body EmptyString then "." else body
  end.

Fixpoint drop_empty (elems : list string) : list string :=
  match elems with
  | [] => []
  | e :: es => if String.eqb e EmptyString then drop_empty es else elems
  end.

(** [filepath.Join]: empty elements in front are ignored, the rest is
    joined by the separator and cleaned; no element left gives the
    empty string. *)
Definition Join (elems : list string) : string :=
  match drop_empty elems with
  | [] => EmptyString
  | es => Clean (strings.Join es "/")
  end.

(** Drops the bytes in front of [rest] up to the first separator; on a
    reversed path this removes the last element. *)
Fixpoint drop_elem (rest : list ascii) : list ascii :=
  match rest with
  | [] => []
  | c :: rest' => if Ascii.eqb c "/"%char then rest else drop_elem rest'
  end.

Fixpoint drop_seps (rest : list ascii) : list ascii :=
  match rest with
  | [] => []
  | c :: rest' => if Ascii.eqb c "/"%char then drop_seps rest' else rest
  end.

Fixpoint take_elem (rest : list ascii) : list ascii :=
  match rest with
  | [] => []
  | c :: rest' => if Ascii.eqb c "/"%char then [] else c :: take_elem rest'
  end.

(** [filepath.Dir]: all but the last element, cleaned. *)
Definition Dir (path : string) : string :=
  Clean (strings.of_chars (rev (drop_elem (rev (strings.chars path))))).

(** [filepath.Base]: the last element; trailing separators are removed
    first. *)
Definition Base (path : string) : string :=
  match path with
  | EmptyString => "."
  | _ =>
      match take_elem (drop_seps (rev (strings.chars path))) with
      | [] => "/"
      | l => strings.of_chars (rev l)
      end
  end.

End unix.

Definition unix_paths : FilePath :=
  {| Join := unix.Join; Dir := unix.Dir; Base := unix.Base |}.

(** ** Values, errors and the world *)

(** A Go [error] that is not nil; [nil] is the [None] of [option error]. *)
Definition error := string.

(** [errors.New]. *)
Definition errors_New (msg : string) : error := msg.

(** What a call can do: return a value, return a non-nil error, or panic
    (a nil dereference at run time). *)
Inductive outcome (A : Type) : Type :=
  | Ok (a : A)
  | Err (e : error)
  | Panic.
Arguments Ok {A} a.
Arguments Err {A} e.
Arguments Panic {A}.

(** The values a [map[string]interface{}] of the builder holds. *)
Inductive value : Type :=
  | VString (s : string)
  | VInt (n : Z)
  | VBool (b : bool)
  | VStrings (l : list string).

Abbreviation context := (gmap string value).

(** Computations over a world [W]: the world is threaded through, an error
    or a panic ends the computation and keeps the world reached so far. *)
Definition M (W A : Type) : Type := W → outcome A * W.

Global Instance M_ret {W} : MRet (M W) := fun A a w => (Ok a, w).

Global Instance M_bind {W} : MBind (M W) := fun A B f m w =>
  match m w with
  | (Ok a, w') => f a w'
  | (Err e, w') => (Err e, w')
  | (Panic, w') => (Panic, w')
  end.

(** A call that only reads the world. *)
Definition reads {W A} (f : W → outcome A) : M W A := fun w => (f w, w).

(** A call of a function without effects. *)
Definition pure {W A} (o : outcome A) : M W A := fun w => (o, w).

(** ** The declarations of the package that the builder uses *)

(** Modelled from the spec: the declaration of [Config] is not part of the
    builder's file; these are the fields the builder reads (static-assets
    root, layouts root, distribution root, base URL, the file names to
    ignore and the nested options of the Markdown engine, each of which
    may be absent). *)
Record HighlightConfig := {
  Style : option string;
  WithNumbers : option bool;
}.
Record RendererOptions := { WithUnsafe : option bool }.
Record GoldmarkConfig := {
  Highlight : option HighlightConfig;      (* HighlightConfig *)
  Renderer : option RendererOptions;       (* RendererOptions *)
}.
Record BuildConfig := {
  IgnoreFiles : list string;
  Goldmark : GoldmarkConfig;
}.
Record Config := {
  Dist : string;
  Static : string;
  Layouts : string;
  BaseUrl : string;
  Build : BuildConfig;
}.

(** Modelled from the spec: the declaration of [YamlFrontMatter] is not
    part of the builder's file; page metadata has a slug override, a
    social-share image, an emoji marker and an open map of further
    key/value pairs. *)
Record YamlFrontMatter := {
  PostSlug : string;
  OgImage : string;
  Emoji : string;
  Extra : gmap string value;
}.

(** The zero value of [YamlFrontMatter]. *)
Definition zeroFrontMatter : YamlFrontMatter :=
  {| PostSlug := EmptyString; OgImage := EmptyString; Emoji := EmptyString;
     Extra := ∅ |}.

(** [FileData], with the fields the builder assigns. *)
Record FileData := {
  Path : string;
  Content : string;
  FrontMatter : YamlFrontMatter;
}.

(** What the builder passes to [goldmark.New]. *)
Inductive HighlightOption :=
  | WithStyle (style : string)
  | WithLineNumbers (b : bool).
Inductive Extender :=
  | GFM
  | Highlighting (opts : list HighlightOption).
Inductive RendererOption := HtmlWithUnsafe.

(** ** The operating system and the libraries *)

(** Result of [os.Stat]: a [FileInfo], or an error for which
    [os.IsNotExist] holds, or another error. *)
Inductive stat :=
  | StatInfo (isDir : bool)
  | StatNotExist (e : error)
  | StatError (e : error).

(** An entry of [os.ReadDir] and the [FileInfo] handed to the function of
    [filepath.Walk]: name and directory flag. *)
Record DirEntry := { Name : string; IsDir : bool }.

(** One call that [filepath.Walk] makes to its function: with the
    [FileInfo] of [path], or with the error met at [path]. *)
Inductive WalkCall :=
  | WalkInfo (path : string) (info : DirEntry)
  | WalkErr (path : string) (e : error).

(** The capabilities the builder consumes, over a world [W]: package [os],
    [io.Copy], [filepath.Walk], the template engine, the front-matter
    parser, the Markdown engine, the emoji renderer, the two [AsMap]
    methods declared elsewhere in the package, and the logger. *)
Class Sys (W : Type) := {
  File : Type;
  Template : Type;
  Markdown : Type;
  os_Stat : string → W → stat;
  os_Mkdir : string → M W unit;
  os_MkdirAll : string → M W unit;
  os_RemoveAll : string → M W unit;
  os_ReadDir : string → W → outcome (list DirEntry);
  os_ReadFile : string → W → outcome string;
  os_Open : string → W → outcome File;
  os_Create : string → M W File;
  io_Copy : File → File → M W unit;            (* io.Copy(dst, src) *)
  (** the calls [filepath.Walk root] makes to a function that returns the
      error it is given and [nil] otherwise (so the walk ends with the
      first [WalkErr]) *)
  filepath_Walk : string → W → list WalkCall;
  mustache_ParseFile : string → W → outcome Template;
  FRender : Template → File → context → M W unit;
  frontmatter_Parse : string → outcome (YamlFrontMatter * string);
  goldmark_New : list Extender → list RendererOption → Markdown;
  Convert : Markdown → string → outcome string;
  SaveTwemojiPng : YamlFrontMatter → File → M W unit;
  Config_AsMap : Config → context;
  FrontMatter_AsMap : YamlFrontMatter → context;
  (** [log.Printf format args...]: returns nothing *)
  log_Printf : string → list value → W → W;
}.

(** ** The builder *)

Section Builder.
Context {W : Type} {sys : Sys W} {goos : GOOS} {fp : FilePath}.

(** [Builder]: the configuration and the three fields [Run] initialises.
    A nil map reads as the empty map; [gm] is a nil interface until
    [Run] sets it. *)
Record Builder := {
  config : Config;
  templateMap : gmap string Template;
  gm : option Markdown;
  baseRenderContext : context;
}.

Definition NewBuilder (c : Config) : Builder :=
  {| config := c; templateMap := ∅; gm := None; baseRenderContext := ∅ |}.

Definition GetDistPath (b : Builder) : string := Dist (config b).

Definition logf (format : string) (args : list value) : M W unit :=
  fun w => (Ok tt, log_Printf format args w).

Definition fail {A} (e : error) : M W A := fun w => (Err e, w).

(** [replaceExt]. *)
Definition replaceExt (filePath from to : string) : string :=
  let ext := filepath.Ext filePath in
  if (0 <? String.length from)%nat
     && negb (String.eqb (strings.ToLower ext) from)
  then filePath
  else String.substring 0 (String.length filePath - String.length ext)
         filePath ++ to.

(** [convertMarkdownPathToHtmlPath]. *)
Definition convertMarkdownPathToHtmlPath (markdownPath : string) : string :=
  replaceExt markdownPath ".md" ".html".

(** [existDir].  When [os.Stat] fails with an error other than "does not
    exist", [info] is nil and [info.IsDir()] panics. *)
Definition existDir (dir : string) (w : W) : outcome bool :=
  match os_Stat dir w with
  | StatNotExist _ => Ok false
  | StatInfo isDir => Ok isDir
  | StatError _ => Panic
  end.

(** [createDistDir]. *)
Definition createDistDir (dist : string) (overwrite : bool) : M W unit :=
  ex ← reads (existDir dist);
  (if ex : bool then
     if negb overwrite
     then fail (errors_New "dist directory already exists")
     else logf "[INFO] re creating dist directory: %s" [VString dist];;
          os_RemoveAll dist
   else mret tt);;
  logf "[INFO] creating dist directory: %s" [VString dist];;
  os_Mkdir dist.

(** [copyFile]. *)
Definition copyFile (src dst : string) : M W unit :=
  srcFile ← reads (os_Open src);
  dstFile ← os_Create dst;
  io_Copy dstFile srcFile.

(** The loop of [copyStatic] over the entries of [src]; [rec] is
    [copyStatic] itself, for the sub-directories. *)
Fixpoint copyEntries (rec : string → string → W → option (outcome unit * W))
    (src dist : string) (files : list DirEntry) (w : W)
  : option (outcome unit * W) :=
  match files with
  | [] => Some (Ok tt, w)
  | file :: rest =>
      let srcFile := Join [src; Name file] in
      let distFile := Join [dist; Name file] in
      match (if IsDir file then rec srcFile distFile w
             else Some (copyFile srcFile distFile w)) with
      | Some (Ok _, w') => copyEntries rec src dist rest w'
      | other => other
      end
  end.

(** [copyStatic].  The recursion follows the directory tree, so it is
    bounded by [fuel]: [None] means the bound was reached. *)
Fixpoint copyStatic (fuel : nat) (src dist : string) (w : W)
  : option (outcome unit * W) :=
  match fuel with
  | O => None
  | S fuel' =>
      match existDir src w with
      | Ok true =>
          match os_MkdirAll dist w with
          | (Ok _, w1) =>
              match os_ReadDir src w1 with
              | Ok files => copyEntries (copyStatic fuel') src dist files w1
              | Err e => Some (Err e, w1)
              | Panic => Some (Panic, w1)
              end
          | (Err e, w1) => Some (Err e, w1)
          | (Panic, w1) => Some (Panic, w1)
          end
      | Ok false =>
          Some (Ok tt,
                log_Printf
                  "[INFO] static directory not found. skip copying static files."
                  [] w)
      | Err e => Some (Err e, w)
      | Panic => Some (Panic, w)
      end
  end.

(** The function [getFilePathsByExt] hands to [filepath.Walk], run over
    the calls of the walk. *)
Fixpoint walkFn (ext : string) (calls : list WalkCall) (filePaths : list string)
  : outcome (list string) :=
  match calls with
  | [] => Ok filePaths
  | WalkErr _ e :: _ => Err e
  | WalkInfo path info :: calls' =>
      walkFn ext calls'
        (if negb (IsDir info) && strings.HasSuffix (Name info) ext
         then (filePaths ++ [path])%list else filePaths)
  end.

(** [getFilePathsByExt]. *)
Definition getFilePathsByExt (dirPath ext : string) (w : W)
  : outcome (list string) :=
  walkFn ext (filepath_Walk dirPath w) [].

(** [purgeIgnoreFiles]. *)
Definition purgeIgnoreFiles (b : Builder) (files : list string) : list string :=
  List.filter
    (fun path =>
       negb (strings.Contains (IgnoreFiles (Build (config b))) (Base path)))
    files.

(** [initGoldmark]. *)
Definition initGoldmark (b : Builder) : Markdown :=
  let highlightoptions :=
    match Highlight (Goldmark (Build (config b))) with
    | Some hc =>
        (match Style hc with Some st => [WithStyle st] | None => [] end ++
         match WithNumbers hc with Some n => [WithLineNumbers n] | None => [] end)%list
    | None => []
    end in
  let extensions :=
    ([GFM] ++
     (if (0 <? length highlightoptions)%nat
      then [Highlighting highlightoptions] else []))%list in
  let rendererOptions :=
    match Renderer (Goldmark (Build (config b))) with
    | Some ro =>
        match WithUnsafe ro with
        | Some true => [HtmlWithUnsafe]
        | _ => []
        end
    | None => []
    end in
  goldmark_New extensions rendererOptions.

(** The loop of [initTemplateMap]. *)
Fixpoint parseTemplates (templateFiles : list string)
    (m : gmap string Template) (w : W) : outcome (gmap string Template) :=
  match templateFiles with
  | [] => Ok m
  | templateFile :: rest =>
      match mustache_ParseFile templateFile w with
      | Ok t => parseTemplates rest (<[templateFile := t]> m) w
      | Err e => Err e
      | Panic => Panic
      end
  end.

(** [initTemplateMap]: the map is assigned only when every file parsed. *)
Definition initTemplateMap (b : Builder) (templateFiles : list string) (w : W)
  : outcome Builder :=
  match parseTemplates templateFiles ∅ w with
  | Ok m =>
      Ok {| config := config b; templateMap := m; gm := gm b;
            baseRenderContext := baseRenderContext b |}
  | Err e => Err e
  | Panic => Panic
  end.

(** [lookUpTemplate]. *)
Definition lookUpTemplate (b : Builder) (path : string) : outcome Template :=
  let dir := Dir path in
  let layoutsDir := Layouts (config b) in
  match templateMap b !! Join [layoutsDir; path] with
  | Some t => Ok t
  | None =>
      match templateMap b !! Join [layoutsDir; dir; "default.html"] with
      | Some t => Ok t
      | None =>
          match templateMap b !! Join [layoutsDir; "default.html"] with
          | Some t => Ok t
          | None => Err (errors_New "template not found")
          end
      end
  end.

(** [getFileData]. *)
Definition getFileData (b : Builder) (markdownPath : string) (w : W)
  : outcome FileData :=
  match os_ReadFile markdownPath w with
  | Ok content =>
      match frontmatter_Parse content with
      | Ok (yfm, markdown) =>
          match gm b with
          | Some g =>
              match Convert g markdown with
              | Ok html =>
                  if String.eqb content markdown
                  then Ok {| Path := markdownPath; Content := html;
                             FrontMatter := zeroFrontMatter |}
                  else Ok {| Path := markdownPath; Content := html;
                             FrontMatter := yfm |}
              | Err e => Err e
              | Panic => Panic
              end
          | None => Panic
          end
      | Err e => Err e
      | Panic => Panic
      end
  | Err e => Err e
  | Panic => Panic
  end.

(** [for k, v := range src { dst[k] = v }]. *)
Definition assignAll (src dst : context) : context :=
  map_fold (fun k v acc => <[k := v]> acc) dst src.

(** [getRenderContext]. *)
Definition getRenderContext (b : Builder) (filedata : FileData)
  : outcome context :=
  let renderContext : context := ∅ in
  let renderContext := <["contents" := VString (Content filedata)]> renderContext in
  let renderContext := assignAll (baseRenderContext b) renderContext in
  let renderContext :=
    assignAll (FrontMatter_AsMap (FrontMatter filedata)) renderContext in
  Ok renderContext.

(** [createDistFile]. *)
Definition createDistFile (dist : string) : M W File :=
  let dir := Dir dist in
  ex ← reads (existDir dir);
  (if negb ex then os_MkdirAll dir else mret tt);;
  os_Create dist.

Definition withPostSlug (fm : YamlFrontMatter) (slug : string) : YamlFrontMatter :=
  {| PostSlug := slug; OgImage := OgImage fm; Emoji := Emoji fm;
     Extra := Extra fm |}.

Definition withOgImage (fm : YamlFrontMatter) (image : string) : YamlFrontMatter :=
  {| PostSlug := PostSlug fm; OgImage := image; Emoji := Emoji fm;
     Extra := Extra fm |}.

Definition withFrontMatter (filedata : FileData) (fm : YamlFrontMatter) : FileData :=
  {| Path := Path filedata; Content := Content filedata; FrontMatter := fm |}.

(** The slug block of [renderContent]: an empty [PostSlug] becomes
    [filepath.ToSlash(strings.TrimSuffix(htmlPath, ".html"))]. *)
Definition setPostSlug (htmlPath : string) (fm : YamlFrontMatter)
  : YamlFrontMatter :=
  if String.eqb (PostSlug fm) EmptyString
  then withPostSlug fm (filepath.ToSlash (strings.TrimSuffix htmlPath ".html"))
  else fm.

(** The og-image block of [renderContent]. *)
Definition setOgImage (b : Builder) (markdownPath : string)
    (fm : YamlFrontMatter) : M W YamlFrontMatter :=
  if String.eqb (OgImage fm) EmptyString
     && negb (String.eqb (Emoji fm) EmptyString)
  then
    let imagePath := replaceExt markdownPath ".md" ".png" in
    let imageDistPath := Join [Dist (config b); imagePath] in
    file ← os_Create imageDistPath;
    SaveTwemojiPng fm file;;
    mret (withOgImage fm (filepath.ToSlash imagePath))
  else mret fm.

(** [renderContent].  The deferred [Close] calls have no effect that the
    model observes. *)
Definition renderContent (b : Builder) (markdownPath : string) : M W unit :=
  let htmlPath := convertMarkdownPathToHtmlPath markdownPath in
  distFile ← createDistFile (Join [Dist (config b); htmlPath]);
  template ← pure (lookUpTemplate b htmlPath);
  filedata ← reads (getFileData b markdownPath);
  let fm := setPostSlug htmlPath (FrontMatter filedata) in
  fm ← setOgImage b markdownPath fm;
  renderContext ← pure (getRenderContext b (withFrontMatter filedata fm));
  FRender template distFile renderContext.

(** *** [Run]: the sequential phases *)

Definition nl : string := String (ascii_of_nat 10) EmptyString.

(** [Run] from the discovery of the Markdown files to the assignment of
    [baseRenderContext]: the builder as the rendering tasks see it, and
    the files to render. *)
Definition Run_load (b : Builder) : M W (Builder * list string) :=
  markdownFiles ← reads (getFilePathsByExt "." ".md");
  let markdownFiles := purgeIgnoreFiles b markdownFiles in
  logf ("[INFO] found %d markdown files" ++ nl)
       [VInt (Z.of_nat (length markdownFiles))];;
  templateFiles ← reads (getFilePathsByExt (Layouts (config b)) ".html");
  b ← reads (initTemplateMap b templateFiles);
  logf ("[INFO] rendering markdown files" ++ nl) [];;
  let b := {| config := config b; templateMap := templateMap b;
              gm := Some (initGoldmark b);
              baseRenderContext := baseRenderContext b |} in
  let b := {| config := config b; templateMap := templateMap b;
              gm := gm b;
              baseRenderContext := Config_AsMap (config b) |} in
  mret (b, markdownFiles).

(** [Run] up to the point where it starts the rendering tasks; [fuel]
    bounds the recursion of [copyStatic]. *)
Definition Run_prepare (fuel : nat) (b : Builder) (w : W)
  : option (outcome (Builder * list string) * W) :=
  match createDistDir (Dist (config b)) true w with
  | (Ok _, w1) =>
      let w2 :=
        log_Printf ("[INFO] copying static files from %s to %s" ++ nl)
          [VString (Static (config b)); VString (Dist (config b))] w1 in
      match copyStatic fuel (Static (config b)) (Dist (config b)) w2 with
      | Some (Ok _, w3) => Some (Run_load b w3)
      | Some (Err e, w3) => Some (Err e, w3)
      | Some (Panic, w3) => Some (Panic, w3)
      | None => None
      end
  | (Err e, w1) => Some (Err e, w1)
  | (Panic, w1) => Some (Panic, w1)
  end.

(** *** [Run]: the rendering tasks

    One goroutine per Markdown file, an unbuffered channel [errCh], a
    [sync.WaitGroup], a goroutine that closes the channel after
    [wg.Wait()], and the loop [for err := range errCh] of [Run] itself.
    The goroutines interleave; one call of [renderContent] is taken as
    one step, and so is a send together with the [wg.Done()] after it. *)

(** A rendering goroutine: started and not yet through [renderContent];
    blocked in [errCh <- err]; or past [wg.Done()], with what
    [renderContent] returned. *)
Inductive task :=
  | Spawned (path : string)
  | Sending (e : error)
  | Finished (r : option error).

Record run_state := {
  world : W;
  tasks : list task;
  closed : bool;                      (* close(errCh) has run *)
  returned : option (option error);   (* what Run has returned, if it has *)
  panicked : bool;                    (* a goroutine panicked: the process is gone *)
}.

Definition is_finished (t : task) : bool :=
  match t with Finished _ => true | _ => false end.

Definition run_init (w : W) (markdownFiles : list string) : run_state :=
  {| world := w; tasks := map Spawned markdownFiles; closed := false;
     returned := None; panicked := false |}.

(** The body of a rendering goroutine up to the return of
    [renderContent]. *)
Definition renderTask (b : Builder) (path : string) : M W unit :=
  logf ("[INFO] rendering %s" ++ nl) [VString path];;
  renderContent b path.

Inductive run_step (b : Builder) : run_state → run_state → Prop :=
  | step_render_ok s i path w' :
      panicked s = false →
      tasks s !! i = Some (Spawned path) →
      renderTask b path (world s) = (Ok tt, w') →
      run_step b s
        {| world := w'; tasks := <[i := Finished None]> (tasks s);
           closed := closed s; returned := returned s; panicked := false |}
  | step_render_err s i path e w' :
      panicked s = false →
      tasks s !! i = Some (Spawned path) →
      renderTask b path (world s) = (Err e, w') →
      run_step b s
        {| world := w'; tasks := <[i := Sending e]> (tasks s);
           closed := closed s; returned := returned s; panicked := false |}
  | step_render_panic s i path w' :
      panicked s = false →
      tasks s !! i = Some (Spawned path) →
      renderTask b path (world s) = (Panic, w') →
      run_step b s
        {| world := w'; tasks := tasks s;
           closed := closed s; returned := returned s; panicked := true |}
  (* [errCh <- err] meets the receive of the range loop; the error is
     not nil, so [Run] returns it; the sender goes on to [wg.Done()] *)
  | step_receive s i e :
      panicked s = false →
      tasks s !! i = Some (Sending e) →
      returned s = None →
      run_step b s
        {| world := world s; tasks := <[i := Finished (Some e)]> (tasks s);
           closed := closed s; returned := Some (Some e); panicked := false |}
  (* [wg.Wait()] returns once every goroutine has called [wg.Done()] *)
  | step_close s :
      panicked s = false →
      closed s = false →
      forallb is_finished (tasks s) = true →
      run_step b s
        {| world := world s; tasks := tasks s;
           closed := true; returned := returned s; panicked := false |}
  (* the range loop ends on the closed channel: [return nil] *)
  | step_range_end s :
      panicked s = false →
      closed s = true →
      returned s = None →
      run_step b s
        {| world := world s; tasks := tasks s;
           closed := true; returned := Some None; panicked := false |}.

(** The states an execution of the tasks can reach. *)
Definition run_reaches (b : Builder) (w : W) (markdownFiles : list string)
  : run_state → Prop :=
  rtc (run_step b) (run_init w markdownFiles).

(** [Run] returns [r] (nil is [None]), leaving the world [w']. *)
Inductive Run_returns (fuel : nat) (b : Builder) (w : W)
  : option error → W → Prop :=
  | Run_prepare_err e w' :
      Run_prepare fuel b w = Some (Err e, w') →
      Run_returns fuel b w (Some e) w'
  | Run_tasks b' markdownFiles w0 s s' r :
      Run_prepare fuel b w = Some (Ok (b', markdownFiles), w0) →
      run_reaches b' w0 markdownFiles s →
      returned s = None →
      run_step b' s s' →
      returned s' = Some r →
      Run_returns fuel b w r (world s').

(** A sequential phase of [Run] returns the error [e], in the world [w']:
    the preparation of the distribution directory, the static copy, the
    discovery of the Markdown files, the discovery of the layouts or the
    loading of the templates; the phases before it returned nil. *)
Inductive phase_fails (fuel : nat) (b : Builder) (w : W) (e : error) (w' : W)
  : Prop :=
  | dist_fails :
      createDistDir (Dist (config b)) true w = (Err e, w') →
      phase_fails fuel b w e w'
  | static_fails w1 :
      createDistDir (Dist (config b)) true w = (Ok tt, w1) →
      copyStatic fuel (Static (config b)) (Dist (config b))
        (log_Printf ("[INFO] copying static files from %s to %s" ++ nl)
           [VString (Static (config b)); VString (Dist (config b))] w1)
      = Some (Err e, w') →
      phase_fails fuel b w e w'
  | discovery_fails w1 :
      createDistDir (Dist (config b)) true w = (Ok tt, w1) →
      copyStatic fuel (Static (config b)) (Dist (config b))
        (log_Printf ("[INFO] copying static files from %s to %s" ++ nl)
           [VString (Static (config b)); VString (Dist (config b))] w1)
      = Some (Ok tt, w') →
      getFilePathsByExt "." ".md" w' = Err e →
      phase_fails fuel b w e w'
  | layouts_fail w1 w3 markdownFiles :
      createDistDir (Dist (config b)) true w = (Ok tt, w1) →
      copyStatic fuel (Static (config b)) (Dist (config b))
        (log_Printf ("[INFO] copying static files from %s to %s" ++ nl)
           [VString (Static (config b)); VString (Dist (config b))] w1)
      = Some (Ok tt, w3) →
      getFilePathsByExt "." ".md" w3 = Ok markdownFiles →
      w' = log_Printf ("[INFO] found %d markdown files" ++ nl)
             [VInt (Z.of_nat (length (purgeIgnoreFiles b markdownFiles)))] w3 →
      getFilePathsByExt (Layouts (config b)) ".html" w' = Err e →
      phase_fails fuel b w e w'
  | templates_fail w1 w3 markdownFiles templateFiles :
      createDistDir (Dist (config b)) true w = (Ok tt, w1) →
      copyStatic fuel (Static (config b)) (Dist (config b))
        (log_Printf ("[INFO] copying static files from %s to %s" ++ nl)
           [VString (Static (config b)); VString (Dist (config b))] w1)
      = Some (Ok tt, w3) →
      getFilePathsByExt "." ".md" w3 = Ok markdownFiles →
      w' = log_Printf ("[INFO] found %d markdown files" ++ nl)
             [VInt (Z.of_nat (length (purgeIgnoreFiles b markdownFiles)))] w3 →
      getFilePathsByExt (Layouts (config b)) ".html" w' = Ok templateFiles →
      initTemplateMap b templateFiles w' = Err e →
      phase_fails fuel b w e w'.

(** What holds in every state of an execution: an error that a task has
    handed over is the one [Run] returned, and no second task has handed
    one over; the error [Run] returned was handed over by a task; the
    channel is closed only after every task finished; [Run] returned nil
    only on the closed channel. *)
Record run_inv (s : run_state) : Prop := {
  inv_handed : ∀ i e, tasks s !! i = Some (Finished (Some e)) →
                      returned s = Some (Some e);
  inv_single : ∀ i j e e', tasks s !! i = Some (Finished (Some e)) →
                           tasks s !! j = Some (Finished (Some e')) → i = j;
  inv_error : ∀ e, returned s = Some (Some e) →
                   ∃ i, tasks s !! i = Some (Finished (Some e));
  inv_closed : closed s = true → forallb is_finished (tasks s) = true;
  inv_nil : returned s = Some None → closed s = true;
}.

(** Every rendering task went through [renderContent] without an error
    and has finished. *)
Definition all_succeeded (s : run_state) : Prop :=
  Forall (fun t => t = Finished None) (tasks s).

(** A rendering task whose [renderContent] returned an error. *)
Definition task_failed (t : task) : Prop :=
  match t with
  | Sending _ | Finished (Some _) => True
  | _ => False
  end.

(** What a task still has to do: render and finish, or hand over its
    error. *)
Definition task_weight (t : task) : nat :=
  match t with
  | Spawned _ => 2
  | Sending _ => 1
  | Finished _ => 0
  end.

(** A bound on the number of steps left. *)
Definition run_measure (s : run_state) : nat :=
  if panicked s then 0
  else S (foldr (fun t n => task_weight t + n) 0 (tasks s)
          + (if closed s then 0 else 1)
          + (match returned s with Some _ => 0 | None => 1 end)).

(** The paths a walk reports for regular files whose name ends in [ext],
    in the order of the walk. *)
Definition walk_matches (ext : string) (calls : list WalkCall) : list string :=
  omap (fun c =>
          match c with
          | WalkInfo path info =>
              if negb (IsDir info) && strings.HasSuffix (Name info) ext
              then Some path else None
          | WalkErr _ _ => None
          end) calls.

(** A call of the walk that reports no error. *)
Definition walk_ok (c : WalkCall) : Prop :=
  match c with WalkInfo _ _ => True | WalkErr _ _ => False end.

(** What [initGoldmark] hands to [goldmark.New]: the extensions and the
    renderer options. *)
Definition initGoldmark_args (b : Builder)
  : list Extender * list RendererOption :=
  let highlightoptions :=
    match Highlight (Goldmark (Build (config b))) with
    | Some hc =>
        (match Style hc with Some st => [WithStyle st] | None => [] end ++
         match WithNumbers hc with Some n => [WithLineNumbers n] | None => [] end)%list
    | None => []
    end in
  let extensions :=
    ([GFM] ++
     (if (0 <? length highlightoptions)%nat
      then [Highlighting highlightoptions] else []))%list in
  let rendererOptions :=
    match Renderer (Goldmark (Build (config b))) with
    | Some ro =>
        match WithUnsafe ro with
        | Some true => [HtmlWithUnsafe]
        | _ => []
        end
    | None => []
    end in
  (extensions, rendererOptions).

(** The range loop [for k, v := range src { dst[k] = v }] when it visits
    the pairs of [src] in the order of [pairs]. *)
Definition assignInOrder (pairs : list (string * value)) (dst : context)
  : context :=
  foldl (fun acc kv => <[fst kv := snd kv]> acc) dst pairs.

End Builder.

(** ** An in-memory system

    A file tree in memory with the behaviour of package [os] on Unix for
    the calls of the builder (no permissions, no links), and small
    stand-ins for the template engine, the front-matter parser, the
    Markdown engine and the emoji renderer.  The properties below hold for
    every [Sys]; this one runs the builder on concrete trees.

    Paths are resolved in their cleaned form, so the tree is meant for the
    paths the builder makes with [filepath.Join] and [filepath.Dir] and
    for configured directories written without a trailing separator; the
    empty path and a file name followed by a separator, which the
    operating system refuses, are not told apart from [.] and from the
    file. *)

Module mem.

Inductive node :=
  | DirNode
  | FileNode (content : string).

(** The tree, keyed by cleaned path relative to the working directory
    (which is ["."] and always a directory), and the log lines. *)
Record fs := {
  nodes : gmap string node;
  logs : list (string * list value);
}.

Definition with_nodes (w : fs) (m : gmap string node) : fs :=
  {| nodes := m; logs := logs w |}.

Definition node_at (w : fs) (p : string) : option node :=
  if String.eqb p "." then Some DirNode else nodes w !! p.

(** The directories above [p], nearest first. *)
Fixpoint ancestors (n : nat) (p : string) : list string :=
  match n with
  | O => []
  | S n' =>
      let d := unix.Dir p in
      if String.eqb d p then [] else d :: ancestors n' d
  end.

Definition above (p : string) : list string := ancestors (String.length p) p.

Definition is_file (w : fs) (p : string) : bool :=
  match node_at w p with Some (FileNode _) => true | _ => false end.

Definition ENOENT : error := "no such file or directory".
Definition ENOTDIR : error := "not a directory".
Definition EEXIST : error := "file exists".
Definition EISDIR : error := "is a directory".

(** The error of a path that is not there: [ENOTDIR] when it passes
    through a file, [ENOENT] otherwise. *)
Definition missing (w : fs) (p : string) : error :=
  if existsb (is_file w) (above p) then ENOTDIR else ENOENT.

Definition Stat (path : string) (w : fs) : stat :=
  let p := unix.Clean path in
  match node_at w p with
  | Some DirNode => StatInfo true
  | Some (FileNode _) => StatInfo false
  | None =>
      if existsb (is_file w) (above p) then StatError ENOTDIR
      else StatNotExist ENOENT
  end.

Definition Mkdir (path : string) : M fs unit := fun w =>
  let p := unix.Clean path in
  match node_at w p with
  | Some _ => (Err EEXIST, w)
  | None =>
      match node_at w (unix.Dir p) with
      | Some DirNode => (Ok tt, with_nodes w (<[p := DirNode]> (nodes w)))
      | Some (FileNode _) => (Err ENOTDIR, w)
      | None => (Err (missing w p), w)
      end
  end.

(** [os.MkdirAll] creates the missing directories from the top. *)
Fixpoint mkdirs (ps : list string) (w : fs) : outcome unit * fs :=
  match ps with
  | [] => (Ok tt, w)
  | q :: rest =>
      match node_at w q with
      | Some DirNode => mkdirs rest w
      | Some (FileNode _) => (Err ENOTDIR, w)
      | None => mkdirs rest (with_nodes w (<[q := DirNode]> (nodes w)))
      end
  end.

Definition MkdirAll (path : string) : M fs unit := fun w =>
  let p := unix.Clean path in
  mkdirs (rev (above p) ++ [p])%list w.

Definition under (p k : string) : bool :=
  String.eqb k p || String.prefix (p ++ "/") k.

Definition RemoveAll (path : string) : M fs unit := fun w =>
  let p := unix.Clean path in
  (Ok tt,
   with_nodes w (filter (fun kv => under p (fst kv) = false) (nodes w))).

Definition entry_le (a b : DirEntry) : Prop := String.le (Name a) (Name b).
Global Instance entry_le_dec : RelDecision entry_le.
Proof. intros a b. unfold entry_le. apply _. Defined.

Definition is_dir_node (n : node) : bool :=
  match n with DirNode => true | FileNode _ => false end.

(** The entries of directory [p], sorted by name. *)
Definition children (w : fs) (p : string) : list DirEntry :=
  merge_sort entry_le
    (omap (fun kv : string * node =>
             if String.eqb (unix.Dir (fst kv)) p
                && negb (String.eqb (fst kv) p)
             then Some {| Name := unix.Base (fst kv);
                          IsDir := is_dir_node (snd kv) |}
             else None)
          (map_to_list (nodes w))).

Definition ReadDir (path : string) (w : fs) : outcome (list DirEntry) :=
  let p := unix.Clean path in
  match node_at w p with
  | Some DirNode => Ok (children w p)
  | Some (FileNode _) => Err ENOTDIR
  | None => Err (missing w p)
  end.

Definition ReadFile (path : string) (w : fs) : outcome string :=
  let p := unix.Clean path in
  match node_at w p with
  | Some (FileNode c) => Ok c
  | Some DirNode => Err EISDIR
  | None => Err (missing w p)
  end.

(** An open file is named by its cleaned path. *)
Definition Open (path : string) (w : fs) : outcome string :=
  let p := unix.Clean path in
  match node_at w p with
  | Some _ => Ok p
  | None => Err (missing w p)
  end.

(** [os.Create]: the file is created or truncated. *)
Definition Create (path : string) : M fs string := fun w =>
  let p := unix.Clean path in
  match node_at w p with
  | Some DirNode => (Err EISDIR, w)
  | _ =>
      match node_at w (unix.Dir p) with
      | Some DirNode =>
          (Ok p, with_nodes w (<[p := FileNode EmptyString]> (nodes w)))
      | Some (FileNode _) => (Err ENOTDIR, w)
      | None => (Err (missing w p), w)
      end
  end.

(** Appends to an open file.  A file is written through one handle at a
    time; two handles open on one file, each with an offset of its own,
    are not modelled. *)
Definition write (f : string) (data : string) : M fs unit := fun w =>
  match node_at w f with
  | Some (FileNode c) =>
      (Ok tt, with_nodes w (<[f := FileNode (c ++ data)]> (nodes w)))
  | _ => (Err "bad file descriptor", w)
  end.

Definition Copy (dst src : string) : M fs unit := fun w =>
  match node_at w src with
  | Some (FileNode c) => write dst c w
  | Some DirNode => (Err EISDIR, w)
  | None => (Err "bad file descriptor", w)
  end.

(** [filepath.Walk]: the root as given, then the entries in lexical
    order, each directory before its content. *)
Fixpoint walk (fuel : nat) (w : fs) (path : string) (info : DirEntry)
  : list WalkCall :=
  WalkInfo path info ::
  (if IsDir info then
     match fuel with
     | O => []
     | S fuel' =>
         flat_map (fun e => walk fuel' w (unix.Join [path; Name e]) e)
                  (children w (unix.Clean path))
     end
   else []).

Definition Walk (root : string) (w : fs) : list WalkCall :=
  let p := unix.Clean root in
  match node_at w p with
  | Some n =>
      walk (size (nodes w)) w root
           {| Name := unix.Base root; IsDir := is_dir_node n |}
  | None => [WalkErr root (missing w p)]
  end.

(** *** Stand-ins for the libraries *)

Definition LF : ascii := ascii_of_nat 10.

(** The lines of a text; the text is their concatenation with line
    feeds between. *)
Fixpoint lines (s : string) : list string :=
  match s with
  | EmptyString => [EmptyString]
  | String c s' =>
      match lines s' with
      | [] => [String c EmptyString]
      | l :: ls =>
          if Ascii.eqb c LF then EmptyString :: l :: ls
          else String c l :: ls
      end
  end.

Definition unlines (ls : list string) : string :=
  String.concat (String LF EmptyString) ls.

(** One [key: value] line of a metadata block. *)
Definition parse_field (fm : YamlFrontMatter) (line : string) : YamlFrontMatter :=
  match String.index 0 ": " line with
  | Some i =>
      let k := String.substring 0 i line in
      let v := String.substring (i + 2) (String.length line - (i + 2)) line in
      if String.eqb k "post_slug" then
        {| PostSlug := v; OgImage := OgImage fm; Emoji := Emoji fm;
           Extra := Extra fm |}
      else if String.eqb k "og_image" then
        {| PostSlug := PostSlug fm; OgImage := v; Emoji := Emoji fm;
           Extra := Extra fm |}
      else if String.eqb k "emoji" then
        {| PostSlug := PostSlug fm; OgImage := OgImage fm; Emoji := v;
           Extra := Extra fm |}
      else
        {| PostSlug := PostSlug fm; OgImage := OgImage fm; Emoji := Emoji fm;
           Extra := <[k := VString v]> (Extra fm) |}
  | None => fm
  end.

(** The metadata lines up to the closing [---] line, and the lines after
    it. *)
Fixpoint parse_block (fm : YamlFrontMatter) (ls : list string)
  : option (YamlFrontMatter * string) :=
  match ls with
  | [] => None
  | l :: rest =>
      if String.eqb l "---" then Some (fm, unlines rest)
      else parse_block (parse_field fm l) rest
  end.

(** Front matter between two [---] lines at the start of the content; a
    content that does not start with a [---] line, or whose block is not
    closed, is returned as it is, with the metadata untouched. *)
Definition Parse (content : string) : outcome (YamlFrontMatter * string) :=
  match lines content with
  | l :: rest =>
      if String.eqb l "---"
      then match parse_block zeroFrontMatter rest with
           | Some r => Ok r
           | None => Ok (zeroFrontMatter, content)
           end
      else Ok (zeroFrontMatter, content)
  | [] => Ok (zeroFrontMatter, content)
  end.

(** Markdown engine: one paragraph around the text. *)
Definition MdConvert (_ : unit) (markdown : string) : outcome string :=
  Ok ("<p>" ++ markdown ++ "</p>").

Definition value_text (v : option value) : string :=
  match v with Some (VString s) => s | _ => EmptyString end.

(** Template engine: a template is the text of its file; rendering
    writes that text followed by the value of [contents]. *)
Definition Render (t : string) (f : string) (ctx : context) : M fs unit :=
  write f (t ++ value_text (ctx !! "contents")).

Definition SavePng (fm : YamlFrontMatter) (f : string) : M fs unit :=
  write f ("PNG " ++ Emoji fm).

Definition opt_field (k v : string) : context :=
  if String.eqb v EmptyString then ∅ else {[ k := VString v ]}.

(** The front matter as a map: the further pairs, and the three fields
    that are set. *)
Definition FmAsMap (fm : YamlFrontMatter) : context :=
  opt_field "post_slug" (PostSlug fm) ∪ opt_field "og_image" (OgImage fm)
  ∪ opt_field "emoji" (Emoji fm) ∪ Extra fm.

Definition CfgAsMap (c : Config) : context :=
  {[ "base_url" := VString (BaseUrl c) ]}.

Definition Log (format : string) (args : list value) (w : fs) : fs :=
  {| nodes := nodes w; logs := (logs w ++ [(format, args)])%list |}.

Definition system : Sys fs := {|
  File := string;
  Template := string;
  Markdown := unit;
  os_Stat := Stat;
  os_Mkdir := Mkdir;
  os_MkdirAll := MkdirAll;
  os_RemoveAll := RemoveAll;
  os_ReadDir := ReadDir;
  os_ReadFile := ReadFile;
  os_Open := Open;
  os_Create := Create;
  io_Copy := Copy;
  filepath_Walk := Walk;
  mustache_ParseFile := ReadFile;
  FRender := Render;
  frontmatter_Parse := Parse;
  goldmark_New := fun _ _ => tt;
  Convert := MdConvert;
  SaveTwemojiPng := SavePng;
  Config_AsMap := CfgAsMap;
  FrontMatter_AsMap := FmAsMap;
  log_Printf := Log;
|}.

(** A tree from paths and nodes. *)
Definition tree (l : list (string * node)) : fs :=
  {| nodes := list_to_map l; logs := [] |}.

End mem.

#[export] Existing Instance mem.system.
#[export] Existing Instance unix_paths.
#[export] Existing Instance Unix.

(** ** A small site

    A tree with one layout, two pages and a static directory, and the
    builder as [Run] sets it up on that tree; the examples below run on
    it. *)

Module site.

Definition cfg : Config :=
  {| Dist := "dist"; Static := "static"; Layouts := "layouts";
     BaseUrl := "https://example.org";
     Build := {| IgnoreFiles := ["README.md"];
                 Goldmark := {| Highlight := None; Renderer := None |} |} |}.

(** The builder of [Run] once the templates in [layouts] are loaded and
    the Markdown engine and the base context are set. *)
Definition builder_of (layouts : gmap string string)
  : @Builder mem.fs mem.system :=
  {| config := cfg; templateMap := layouts; gm := Some tt;
     baseRenderContext := mem.CfgAsMap cfg |}.

(** The log of [Run] up to the start of the rendering tasks, on a tree
    without a static directory and with [n] Markdown files. *)
Definition prepared_logs (n : Z) : list (string * list value) :=
  [("[INFO] creating dist directory: %s", [VString "dist"]);
   ("[INFO] copying static files from %s to %s" ++ nl,
    [VString "static"; VString "dist"]);
   ("[INFO] static directory not found. skip copying static files.", []);
   ("[INFO] found %d markdown files" ++ nl, [VInt n]);
   ("[INFO] rendering markdown files" ++ nl, [])].

(** *** A site with a static directory

    [blog/hello.md] has a front-matter block, [index.md] has none and
    [empty.md] has an empty block. *)
Definition pages : list (string * mem.node) :=
  [("layouts", mem.DirNode);
   ("layouts/default.html", mem.FileNode "<html>");
   ("blog", mem.DirNode);
   ("blog/hello.md",
    mem.FileNode (mem.unlines ["---"; "title: Hello"; "---"; "hello"]));
   ("index.md", mem.FileNode "top");
   ("empty.md", mem.FileNode (mem.unlines ["---"; "---"; "body"]));
   ("README.md", mem.FileNode "readme");
   ("static", mem.DirNode);
   ("static/css", mem.DirNode);
   ("static/css/a.css", mem.FileNode "body{}")].

Definition root : mem.fs := mem.tree pages.

(** [root] once [Run] has made the distribution directory and copied the
    static files. *)
Definition root_dist : mem.fs :=
  mem.tree
    (app pages [("dist", mem.DirNode); ("dist/css", mem.DirNode);
                ("dist/css/a.css", mem.FileNode "body{}")]).

Definition builder : @Builder mem.fs mem.system :=
  builder_of {[ "layouts/default.html" := "<html>" ]}.

(** The builder right after [initTemplateMap] on the layout of [root]. *)
Definition builder_loaded : @Builder mem.fs mem.system :=
  {| config := cfg;
     templateMap := {[ "layouts/default.html" := "<html>" ]};
     gm := None;
     baseRenderContext := ∅ |}.

(** *** A site without a static directory: one layout, one page *)
Definition plain : mem.fs :=
  mem.tree
    [("layouts", mem.DirNode);
     ("layouts/default.html", mem.FileNode "<html>");
     ("index.md", mem.FileNode "top")].

(** [plain] when [Run] starts the rendering tasks. *)
Definition plain_prepared : mem.fs :=
  {| mem.nodes := <["dist" := mem.DirNode]> (mem.nodes plain);
     mem.logs := prepared_logs 1 |}.

(** [plain] when [Run] has returned. *)
Definition plain_built : mem.fs :=
  {| mem.nodes :=
       <["dist/index.html" := mem.FileNode "<html><p>top</p>"]>
         (<["dist" := mem.DirNode]> (mem.nodes plain));
     mem.logs :=
       app (prepared_logs 1)
           [("[INFO] rendering %s" ++ nl, [VString "index.md"])] |}.

(** The tasks of [plain]: started; rendered; channel closed; [Run]
    returned. *)
Definition plain_tasks (done_ : bool) (closed_ : bool)
    (returned_ : option (option error)) : run_state :=
  {| world := if done_ then plain_built else plain_prepared;
     tasks := [if done_ then Finished None else Spawned "index.md"];
     closed := closed_; returned := returned_; panicked := false |}.

(** *** A site with two pages, no layout and no static directory *)
Definition bare : mem.fs :=
  mem.tree
    [("layouts", mem.DirNode);
     ("a.md", mem.FileNode "a");
     ("b.md", mem.FileNode "b")].

(** [bare] when [Run] starts the rendering tasks. *)
Definition bare_prepared : mem.fs :=
  {| mem.nodes := <["dist" := mem.DirNode]> (mem.nodes bare);
     mem.logs := prepared_logs 2 |}.

Definition builder_bare : @Builder mem.fs mem.system := builder_of ∅.

(** The error of every rendering on [bare]. *)
Definition not_found : error := errors_New "template not found".

(** The tasks of [bare]: at the start; when the task of [a.md] has failed
    and waits to send its error; and when [Run] has received it. *)
Definition bare_world1 : mem.fs :=
  snd (renderTask builder_bare "a.md" bare_prepared).

Definition bare_start : run_state := run_init bare_prepared ["a.md"; "b.md"].

Definition bare_sending : run_state :=
  {| world := bare_world1; tasks := [Sending not_found; Spawned "b.md"];
     closed := false; returned := None; panicked := false |}.

Definition bare_returned : run_state :=
  {| world := bare_world1;
     tasks := [Finished (Some not_found); Spawned "b.md"];
     closed := false; returned := Some (Some not_found); panicked := false |}.

(** *** A tree with one page and no layouts directory *)
Definition orphan : mem.fs := mem.tree [("a.md", mem.FileNode "a")].

(** *** Render contexts

    A builder with a given base context, and a document with given
    content and further front-matter pairs. *)
Definition builder_with (base : context) : @Builder mem.fs mem.system :=
  {| config := cfg; templateMap := ∅; gm := Some tt;
     baseRenderContext := base |}.

Definition page (content : string) (extra : context) : FileData :=
  {| Path := "index.md"; Content := content;
     FrontMatter := {| PostSlug := EmptyString; OgImage := EmptyString;
                       Emoji := EmptyString; Extra := extra |} |}.

(** *** A front matter with an emoji and no image *)
Definition with_emoji : YamlFrontMatter :=
  {| PostSlug := "index"; OgImage := EmptyString; Emoji := "rocket";
     Extra := ∅ |}.

(** A configuration whose highlight section sets neither the style nor
    the line numbers and whose renderer section sets [WithUnsafe] to
    false. *)
Definition cfg_quiet : Config :=
  {| Dist := "dist"; Static := "static"; Layouts := "layouts";
     BaseUrl := EmptyString;
     Build := {| IgnoreFiles := [];
                 Goldmark :=
                   {| Highlight := Some {| Style := None;
                                           WithNumbers := None |};
                      Renderer := Some {| WithUnsafe := Some false |} |} |} |}.

Definition builder_of_cfg (c : Config) : @Builder mem.fs mem.system :=
  NewBuilder c.

(** [bare] when [Run] has returned the error of [a.md] and the task of
    [b.md] has failed after that. *)
Definition bare_world2 : mem.fs :=
  snd (renderTask builder_bare "b.md" bare_world1).

Definition bare_leaked : run_state :=
  {| world := bare_world2;
     tasks := [Finished (Some not_found); Sending not_found];
     closed := false; returned := Some (Some not_found); panicked := false |}.

(** *** A static directory with three files, and a destination in which
    the name of the second one is taken by a directory *)
Definition clash : mem.fs :=
  mem.tree
    [("static", mem.DirNode);
     ("static/a.css", mem.FileNode "a");
     ("static/b", mem.FileNode "b");
     ("static/c", mem.FileNode "c");
     ("out", mem.DirNode);
     ("out/b", mem.DirNode)].

(** *** A site without pages: the layouts directory and [README.md],
    which the configuration ignores *)
Definition empty : mem.fs :=
  mem.tree
    [("layouts", mem.DirNode);
     ("layouts/default.html", mem.FileNode "<html>");
     ("README.md", mem.FileNode "readme")].

(** *** A site whose static directory holds a regular file [blog], with
    a page below the directory [blog/sub] and no layout

    The static copy makes [dist/blog] a regular file, so the distribution
    directory of the page, [dist/blog/sub], passes through a file. *)
Definition shadowed : mem.fs :=
  mem.tree
    [("layouts", mem.DirNode);
     ("static", mem.DirNode);
     ("static/blog", mem.FileNode "x");
     ("a.md", mem.FileNode "a");
     ("blog", mem.DirNode);
     ("blog/sub", mem.DirNode);
     ("blog/sub/x.md", mem.FileNode "x")].

(** [shadowed] when [Run] starts the rendering tasks. *)
Definition shadowed_prepared : mem.fs :=
  {| mem.nodes :=
       <["dist/blog" := mem.FileNode "x"]>
         (<["dist" := mem.DirNode]> (mem.nodes shadowed));
     mem.logs :=
       [("[INFO] creating dist directory: %s", [VString "dist"]);
        ("[INFO] copying static files from %s to %s" ++ nl,
         [VString "static"; VString "dist"]);
        ("[INFO] found %d markdown files" ++ nl, [VInt 2]);
        ("[INFO] rendering markdown files" ++ nl, [])] |}.

(** The tasks of [shadowed] when the task of [a.md] has failed and waits
    to send its error, and the task of [blog/sub/x.md] has panicked. *)
Definition shadowed_world1 : mem.fs :=
  snd (renderTask builder_bare "a.md" shadowed_prepared).

Definition shadowed_world2 : mem.fs :=
  snd (renderTask builder_bare "blog/sub/x.md" shadowed_world1).

Definition shadowed_sending : run_state :=
  {| world := shadowed_world1;
     tasks := [Sending not_found; Spawned "blog/sub/x.md"];
     closed := false; returned := None; panicked := false |}.

Definition shadowed_crashed : run_state :=
  {| world := shadowed_world2;
     tasks := [Sending not_found; Spawned "blog/sub/x.md"];
     closed := false; returned := None; panicked := true |}.

End site.

(** * Properties *)

(** Equality of two closed terms by evaluation of both sides on the
    virtual machine (the type of the equation is left as it is: a type
    with maps in it is costly to normalise). *)
Ltac vm_refl :=
  lazymatch goal with
  | |- @eq ?T ?l ?r => exact (@eq_refl T r <: @eq T l r)
  end.

(** ** The path functions on examples of the Go documentation *)

Example unix_Clean_examples :
  map unix.Clean ["a//b/../c/."; "/../a"; "../../a/.."; "/"; "./layouts"; "a/.."; "a/b/"; "abc/../../d"]
  = ["a/c"; "/a"; "../.."; "/"; "layouts"; "."; "a/b"; "../d"].
Proof. reflexivity. Qed.

Example unix_Join_examples :
  map unix.Join [["layouts"; "blog/post.html"]; ["layouts"; "."; "default.html"];
                 [EmptyString; "a"]; ["dist"; "blog"; "default.html"]; [EmptyString]; ["a"; EmptyString]]
  = ["layouts/blog/post.html"; "layouts/default.html"; "a"; "dist/blog/default.html"; EmptyString; "a"].
Proof. reflexivity. Qed.

Example unix_Dir_examples :
  map unix.Dir ["blog/post.html"; "post.html"; "/a/b"; "/a"; "a/b/"; EmptyString; "a//b"]
  = ["blog"; "."; "/a"; "/"; "a/b"; "."; "a"].
Proof. reflexivity. Qed.

Example unix_Base_examples :
  map unix.Base ["blog/post.md"; "post.md"; "/"; "a/b/"; EmptyString; "//"]
  = ["post.md"; "post.md"; "/"; "b"; "."; "/"].
Proof. reflexivity. Qed.

Example Ext_examples :
  map (@filepath.Ext Unix) ["a.md"; "blog/hello.MD"; "a.b/c"; "a"; ".md"; "x.tar.gz"; "a."]
  = [".md"; ".MD"; EmptyString; EmptyString; ".md"; ".gz"; "."].
Proof. reflexivity. Qed.

(** ** The builder on the small site *)

(** [Run] up to the rendering tasks on the site with a static directory:
    the static tree is copied below the distribution directory, the
    ignored file is dropped from the Markdown files, the layout is
    loaded. *)
Example Run_prepare_root :
  match Run_prepare 3 (NewBuilder site.cfg) site.root with
  | Some (Ok (b, markdownFiles), w) => Some (b, markdownFiles, mem.nodes w)
  | _ => None
  end
  = Some (site.builder, ["blog/hello.md"; "empty.md"; "index.md"],
          mem.nodes site.root_dist).
Proof. vm_refl. Qed.

(** With too little fuel for the depth of the static tree the model of
    [copyStatic] gives no result. *)
Example Run_prepare_root_fuel :
  Run_prepare 1 (NewBuilder site.cfg) site.root = None.
Proof. vm_refl. Qed.

(** The example of the specification: [blog/post.html] resolves to the
    global default when that is the only layout, and to the default of
    its directory once [layouts/blog/default.html] exists. *)
Example lookUpTemplate_global_default :
  lookUpTemplate (site.builder_of {[ "layouts/default.html" := "G" ]})
    "blog/post.html" = Ok "G".
Proof. vm_refl. Qed.

Example lookUpTemplate_directory_default :
  lookUpTemplate
    (site.builder_of {[ "layouts/default.html" := "G";
                        "layouts/blog/default.html" := "D" ]})
    "blog/post.html" = Ok "D".
Proof. vm_refl. Qed.

(** A Windows path: the slug has forward slashes. *)
Example setPostSlug_windows :
  PostSlug (@setPostSlug Windows
              (@convertMarkdownPathToHtmlPath Windows "blog\hello.md")
              zeroFrontMatter) = "blog/hello".
Proof. reflexivity. Qed.

(** ** Strings *)

Lemma sapp_cons (c : ascii) (s t : string) : String c s ++ t = String c (s ++ t).
Proof. reflexivity. Qed.

Lemma sapp_nil_l (t : string) : EmptyString ++ t = t.
Proof. reflexivity. Qed.

Ltac string_ind s :=
  induction s as [|? s ?]; rewrite ?sapp_nil_l, ?sapp_cons; simpl;
  rewrite ?sapp_nil_l, ?sapp_cons.

Lemma chars_app (s1 s2 : string) :
  strings.chars (s1 ++ s2) = (strings.chars s1 ++ strings.chars s2)%list.
Proof. string_ind s1; [done | by f_equal]. Qed.

Lemma of_chars_app (l1 l2 : list ascii) :
  strings.of_chars (l1 ++ l2)%list = strings.of_chars l1 ++ strings.of_chars l2.
Proof. induction l1 as [|c l1 IH]; simpl; rewrite ?sapp_cons; [done | by rewrite IH]. Qed.

Lemma of_chars_chars (s : string) : strings.of_chars (strings.chars s) = s.
Proof. apply string_of_list_ascii_of_string. Qed.

Lemma chars_of_chars (l : list ascii) : strings.chars (strings.of_chars l) = l.
Proof. apply list_ascii_of_string_of_list_ascii. Qed.

Lemma slength_app (s1 s2 : string) :
  String.length (s1 ++ s2) = String.length s1 + String.length s2.
Proof. string_ind s1; [done | by f_equal]. Qed.

Lemma sapp_nil_r (s : string) : s ++ EmptyString = s.
Proof. string_ind s; [done | by f_equal]. Qed.

Lemma sapp_assoc (s1 s2 s3 : string) : (s1 ++ s2) ++ s3 = s1 ++ (s2 ++ s3).
Proof. string_ind s1; [done | by f_equal]. Qed.

Lemma substring_all (s : string) : String.substring 0 (String.length s) s = s.
Proof. induction s as [|c s IH]; simpl; [done | by rewrite IH]. Qed.

Lemma substring_head (s1 s2 : string) :
  String.substring 0 (String.length s1) (s1 ++ s2) = s1.
Proof. string_ind s1; [by destruct s2 | by f_equal]. Qed.

Lemma substring_tail (s1 s2 : string) :
  String.substring (String.length s1) (String.length s2) (s1 ++ s2) = s2.
Proof. string_ind s1; [apply substring_all | done]. Qed.

Lemma HasSuffix_app (s suffix : string) : strings.HasSuffix (s ++ suffix) suffix = true.
Proof.
  unfold strings.HasSuffix. rewrite slength_app.
  replace (String.length s + String.length suffix - String.length suffix)
    with (String.length s) by lia.
  rewrite substring_tail, String.eqb_refl, andb_true_r.
  apply Nat.leb_le. lia.
Qed.

Lemma TrimSuffix_app (s suffix : string) : strings.TrimSuffix (s ++ suffix) suffix = s.
Proof.
  unfold strings.TrimSuffix. rewrite HasSuffix_app, slength_app.
  replace (String.length s + String.length suffix - String.length suffix)
    with (String.length s) by lia.
  apply substring_head.
Qed.

(** A string with the suffix is the rest followed by the suffix. *)
Lemma substring_split (n : nat) (s : string) :
  (n ≤ String.length s)%nat →
  s = String.substring 0 n s ++ String.substring n (String.length s - n) s.
Proof.
  revert n. induction s as [|c s IH]; intros n Hn; simpl in *.
  - by destruct n.
  - destruct n as [|n]; simpl; rewrite ?sapp_nil_l, ?sapp_cons.
    + by rewrite substring_all.
    + f_equal. apply IH. lia.
Qed.

Lemma HasSuffix_inv (s suffix : string) :
  strings.HasSuffix s suffix = true → ∃ stem, s = stem ++ suffix.
Proof.
  unfold strings.HasSuffix. intros [Hle Heq]%andb_true_iff.
  apply Nat.leb_le in Hle. apply String.eqb_eq in Heq.
  exists (String.substring 0 (String.length s - String.length suffix) s).
  rewrite (substring_split (String.length s - String.length suffix) s) at 1 by lia.
  f_equal. rewrite <- Heq at 3. f_equal. lia.
Qed.

Lemma TrimSuffix_suffix (s suffix : string) :
  strings.TrimSuffix s suffix = s ∨ s = strings.TrimSuffix s suffix ++ suffix.
Proof.
  destruct (strings.HasSuffix s suffix) eqn:H.
  - right. destruct (HasSuffix_inv _ _ H) as [stem ->]. by rewrite TrimSuffix_app.
  - left. unfold strings.TrimSuffix. by rewrite H.
Qed.

(** ** Extensions *)

Section Ext.
Context {goos : GOOS}.

(** [Ext] returns a suffix of the path. *)
Lemma ext_scan_suffix (rest acc : list ascii) :
  ∃ pre, (rev rest ++ acc)%list = (pre ++ filepath.ext_scan rest acc)%list.
Proof.
  revert acc. induction rest as [|c rest IH]; intros acc; simpl.
  - by exists acc; rewrite app_nil_r.
  - destruct (IsPathSeparator c).
    + eexists. by rewrite app_nil_r.
    + destruct (Ascii.eqb c "."%char).
      * exists (rev rest). by rewrite <- app_assoc.
      * destruct (IH (c :: acc)) as [pre Hpre]. exists pre.
        by rewrite <- app_assoc.
Qed.

Lemma Ext_suffix (path : string) : ∃ stem, path = stem ++ filepath.Ext path.
Proof.
  destruct (ext_scan_suffix (rev (strings.chars path)) []) as [pre Hpre].
  exists (strings.of_chars pre). unfold filepath.Ext.
  rewrite <- of_chars_app, <- Hpre, rev_involutive, app_nil_r.
  by rewrite of_chars_chars.
Qed.

(** A byte that can stand in an extension after its dot. *)
Definition ext_byte (c : ascii) : bool :=
  negb (IsPathSeparator c) && negb (Ascii.eqb c "."%char).

Lemma dot_not_separator : IsPathSeparator "."%char = false.
Proof. by destruct goos. Qed.

Lemma ext_scan_dot (l rest acc : list ascii) :
  forallb ext_byte l = true →
  filepath.ext_scan (l ++ "."%char :: rest)%list acc = ("."%char :: rev l ++ acc)%list.
Proof.
  revert acc. induction l as [|c l IH]; intros acc Hl; simpl in *.
  - by rewrite dot_not_separator.
  - apply andb_true_iff in Hl as [Hc Hl]. unfold ext_byte in Hc.
    apply andb_true_iff in Hc as [Hs Hd].
    apply negb_true_iff in Hs, Hd. rewrite Hs, Hd, IH by done.
    by rewrite <- app_assoc.
Qed.

Lemma forallb_rev_true {A} (f : A → bool) (l : list A) :
  forallb f l = true → forallb f (rev l) = true.
Proof.
  rewrite !forallb_forall. intros H x Hx. apply H. by apply in_rev.
Qed.

(** The extension of a path that ends in a dot and bytes of an extension. *)
Lemma Ext_app (stem e : string) :
  forallb ext_byte (strings.chars e) = true →
  filepath.Ext (stem ++ "." ++ e) = "." ++ e.
Proof.
  intros He. unfold filepath.Ext.
  rewrite chars_app, rev_app_distr. rewrite sapp_cons, sapp_nil_l.
  change (strings.chars (String "." e)) with ("."%char :: strings.chars e).
  change (rev ("."%char :: strings.chars e))
    with (rev (strings.chars e) ++ ["."%char])%list.
  rewrite <- app_assoc. simpl app.
  rewrite ext_scan_dot.
  - rewrite rev_involutive, app_nil_r. simpl. by rewrite of_chars_chars.
  - by apply forallb_rev_true.
Qed.

End Ext.

(** ** [replaceExt] *)

Lemma lower_byte_dot (c : ascii) : strings.lower_byte c = "."%char → c = "."%char.
Proof.
  destruct c as [[] [] [] [] [] [] [] []]; vm_compute; intros H;
    first [reflexivity | discriminate H].
Qed.

Lemma lower_byte_m (c : ascii) :
  strings.lower_byte c = "m"%char → c = "m"%char ∨ c = "M"%char.
Proof.
  destruct c as [[] [] [] [] [] [] [] []]; vm_compute; intros H;
    first [by left | by right | discriminate H].
Qed.

Lemma lower_byte_d (c : ascii) :
  strings.lower_byte c = "d"%char → c = "d"%char ∨ c = "D"%char.
Proof.
  destruct c as [[] [] [] [] [] [] [] []]; vm_compute; intros H;
    first [by left | by right | discriminate H].
Qed.

(** The strings that lower-case to [.md]. *)
Lemma ToLower_md (ext : string) :
  strings.ToLower ext = ".md" ↔
  ext = ".md" ∨ ext = ".Md" ∨ ext = ".mD" ∨ ext = ".MD".
Proof.
  split.
  - destruct ext as [|c1 [|c2 [|c3 [|c4 ext]]]]; simpl; intros H; try discriminate H.
    injection H as H1 H2 H3.
    apply lower_byte_dot in H1 as ->.
    apply lower_byte_m in H2 as [-> | ->];
      apply lower_byte_d in H3 as [-> | ->]; auto.
  - intros [-> | [-> | [-> | ->]]]; reflexivity.
Qed.

Section ReplaceExt.
Context {goos : GOOS}.

Lemma replaceExt_keep (filePath from to : string) :
  from ≠ EmptyString →
  strings.ToLower (filepath.Ext filePath) ≠ from →
  replaceExt filePath from to = filePath.
Proof.
  intros Hfrom Hne. unfold replaceExt.
  apply String.eqb_neq in Hne. rewrite Hne.
  destruct from; [done | reflexivity].
Qed.

Lemma replaceExt_swap (stem from to : string) (filePath : string) :
  filePath = stem ++ filepath.Ext filePath →
  strings.ToLower (filepath.Ext filePath) = from →
  replaceExt filePath from to = stem ++ to.
Proof.
  intros Hstem Hlow. unfold replaceExt.
  apply String.eqb_eq in Hlow. rewrite Hlow, andb_false_r.
  f_equal. rewrite Hstem at 1 3. rewrite slength_app.
  replace (String.length stem + String.length (filepath.Ext filePath)
           - String.length (filepath.Ext filePath))
    with (String.length stem) by lia.
  apply substring_head.
Qed.

Lemma replaceExt_upper_md (stem to : string) :
  replaceExt (stem ++ ".MD") ".md" to = stem ++ to.
Proof.
  assert (He : filepath.Ext (stem ++ ".MD") = ".MD").
  { apply (Ext_app stem "MD"). by destruct goos. }
  apply replaceExt_swap; rewrite He; reflexivity.
Qed.

Lemma replaceExt_lower_md (stem to : string) :
  replaceExt (stem ++ ".md") ".md" to = stem ++ to.
Proof.
  assert (He : filepath.Ext (stem ++ ".md") = ".md").
  { apply (Ext_app stem "md"). by destruct goos. }
  apply replaceExt_swap; rewrite He; reflexivity.
Qed.

End ReplaceExt.

Lemma HasSuffix_upper_md (stem : string) :
  strings.HasSuffix (stem ++ ".MD") ".md" = false.
Proof.
  unfold strings.HasSuffix. rewrite slength_app.
  replace (String.length stem + String.length ".MD" - String.length ".md")
    with (String.length stem) by (simpl; lia).
  change (String.length ".md") with (String.length ".MD") at 2.
  rewrite substring_tail. apply andb_false_r.
Qed.

(** ** The render context *)

Section Properties.
Context {W : Type} {sys : Sys W} {goos : GOOS} {fp : FilePath}.

(** The loop that assigns every pair of [src] into [dst] computes the
    union in which [src] wins, whatever the order of the iteration. *)
Lemma assignAll_union (src dst : context) : assignAll src dst = src ∪ dst.
Proof.
  unfold assignAll.
  apply (map_fold_weak_ind (fun r (m : context) => r = m ∪ dst)).
  - by rewrite (left_id_L ∅ (∪)).
  - intros k v m r Hk ->. by rewrite insert_union_l.
Qed.

Lemma getRenderContext_union (b : Builder) (filedata : FileData) :
  getRenderContext b filedata
  = Ok (FrontMatter_AsMap (FrontMatter filedata)
        ∪ (baseRenderContext b
           ∪ {[ "contents" := VString (Content filedata) ]})).
Proof.
  unfold getRenderContext. by rewrite !assignAll_union, insert_empty.
Qed.

(** ** [renderContent], step by step *)

Lemma renderContent_createDistFile_fails (b : Builder) (markdownPath : string)
    (w w1 : W) (o : outcome File) :
  createDistFile
    (Join [Dist (config b); convertMarkdownPathToHtmlPath markdownPath]) w
  = (o, w1) →
  (∀ f, o ≠ Ok f) →
  renderContent b markdownPath w
  = (match o with Err e => Err e | _ => Panic end, w1).
Proof.
  intros Hc Ho. unfold renderContent, mbind, M_bind. rewrite Hc.
  destruct o; [by destruct (Ho a) | done | done].
Qed.

Lemma renderContent_created (b : Builder) (markdownPath : string)
    (w w1 : W) (distFile : File) :
  createDistFile
    (Join [Dist (config b); convertMarkdownPathToHtmlPath markdownPath]) w
  = (Ok distFile, w1) →
  renderContent b markdownPath w
  = match lookUpTemplate b (convertMarkdownPathToHtmlPath markdownPath) with
    | Ok template =>
        match getFileData b markdownPath w1 with
        | Ok filedata =>
            match setOgImage b markdownPath
                    (setPostSlug (convertMarkdownPathToHtmlPath markdownPath)
                                 (FrontMatter filedata)) w1 with
            | (Ok fm, w2) =>
                match getRenderContext b (withFrontMatter filedata fm) with
                | Ok renderContext => FRender template distFile renderContext w2
                | Err e => (Err e, w2)
                | Panic => (Panic, w2)
                end
            | (Err e, w2) => (Err e, w2)
            | (Panic, w2) => (Panic, w2)
            end
        | Err e => (Err e, w1)
        | Panic => (Panic, w1)
        end
    | Err e => (Err e, w1)
    | Panic => (Panic, w1)
    end.
Proof.
  intros Hc. unfold renderContent, mbind, M_bind, pure, reads. rewrite Hc.
  destruct (lookUpTemplate b _); [| done | done].
  destruct (getFileData b markdownPath w1); [| done | done].
  destruct (setOgImage b markdownPath _ w1) as [[fm | e |] w2]; [| done | done].
  by destruct (getRenderContext b _).
Qed.


End Properties.

(** ** The template registry *)

Section Registry.
Context {W : Type} {sys : Sys W} {goos : GOOS} {fp : FilePath}.

(** After the loop of [initTemplateMap] the map holds, at every file of
    the list, the template parsed from that file, and is unchanged
    elsewhere. *)
Lemma parseTemplates_lookup (templateFiles : list string)
    (m m' : gmap string Template) (w : W) :
  parseTemplates templateFiles m w = Ok m' →
  ∀ k, ((k ∈ templateFiles)
        ∧ (∃ t, mustache_ParseFile k w = Ok t ∧ m' !! k = Some t))
       ∨ ((k ∉ templateFiles) ∧ m' !! k = m !! k).
Proof.
  revert m. induction templateFiles as [|f rest IH]; intros m Hp k; simpl in Hp.
  - right. injection Hp as <-. split; [apply not_elem_of_nil | done].
  - destruct (mustache_ParseFile f w) as [t | e |] eqn:Hf; [| done | done].
    destruct (IH _ Hp k) as [[Hin Ht] | [Hnin Hk]].
    + left. split; [apply elem_of_cons; by right | done].
    + destruct (decide (k = f)) as [-> | Hne].
      * left. split; [apply elem_of_cons; by left |].
        exists t. split; [done |]. by rewrite Hk, lookup_insert_eq.
      * right. split.
        -- intros [? | ?]%elem_of_cons; done.
        -- by rewrite Hk, lookup_insert_ne.
Qed.

(** The registry of a builder loaded by [initTemplateMap]: its keys are
    the layout files, its entries their parsed templates. *)
Lemma initTemplateMap_registry (b0 b : Builder) (templateFiles : list string)
    (w : W) :
  initTemplateMap b0 templateFiles w = Ok b →
  config b = config b0
  ∧ (∀ k, is_Some (templateMap b !! k) ↔ k ∈ templateFiles)
  ∧ (∀ k t, templateMap b !! k = Some t → mustache_ParseFile k w = Ok t).
Proof.
  unfold initTemplateMap.
  destruct (parseTemplates templateFiles ∅ w) as [m | e |] eqn:Hp; [| done | done].
  intros [= <-]. simpl. split; [done |].
  split.
  - intros k. destruct (parseTemplates_lookup _ _ _ _ Hp k)
      as [[Hin (t & _ & Ht)] | [Hnin Hk]].
    + by rewrite Ht.
    + rewrite Hk, lookup_empty. split; [by intros [? ?] | done].
  - intros k t Hk. destruct (parseTemplates_lookup _ _ _ _ Hp k)
      as [[Hin (t' & Hparse & Ht)] | [Hnin Hk']].
    + congruence.
    + by rewrite Hk', lookup_empty in Hk.
Qed.

(** C1: on a registry loaded from a list of layout files (its keys are
    those files, its entries their parsed templates), [lookUpTemplate]
    returns the entry at [layouts/path] when that key exists; otherwise
    the entry at [layouts/dir(path)/default.html] when that key exists;
    otherwise the entry at [layouts/default.html] when that key exists;
    and it fails, with the error [template not found], exactly when none
    of the three keys exists. *)
Theorem lookUpTemplate_tiers (b0 b : Builder) (templateFiles : list string)
    (w : W) (path : string) :
  initTemplateMap b0 templateFiles w = Ok b →
  let k1 := Join [Layouts (config b); path] in
  let k2 := Join [Layouts (config b); Dir path; "default.html"] in
  let k3 := Join [Layouts (config b); "default.html"] in
  (∀ k, is_Some (templateMap b !! k) ↔ k ∈ templateFiles)
  ∧ (∀ k t, templateMap b !! k = Some t → mustache_ParseFile k w = Ok t)
  ∧ (∀ t, templateMap b !! k1 = Some t → lookUpTemplate b path = Ok t)
  ∧ (∀ t, templateMap b !! k1 = None → templateMap b !! k2 = Some t →
          lookUpTemplate b path = Ok t)
  ∧ (∀ t, templateMap b !! k1 = None → templateMap b !! k2 = None →
          templateMap b !! k3 = Some t → lookUpTemplate b path = Ok t)
  ∧ (lookUpTemplate b path = Err (errors_New "template not found") ↔
     (k1 ∉ templateFiles) ∧ (k2 ∉ templateFiles) ∧ (k3 ∉ templateFiles))
  ∧ ((∀ t, lookUpTemplate b path ≠ Ok t) ↔
     lookUpTemplate b path = Err (errors_New "template not found")).
Proof.
  intros Hinit k1 k2 k3.
  destruct (initTemplateMap_registry _ _ _ _ Hinit) as (_ & Hdom & Hparse).
  split; [done |]. split; [done |].
  assert (Hnone : ∀ k, templateMap b !! k = None ↔ k ∉ templateFiles).
  { intros k. rewrite <- Hdom, eq_None_not_Some. done. }
  unfold lookUpTemplate. fold k1 k2 k3. rewrite <- !Hnone.
  split; [by intros t -> |].
  split; [by intros t -> -> |].
  split; [by intros t -> -> -> |].
  destruct (templateMap b !! k1) as [t1|].
  { split; [by split; [| intros (? & _)] |].
    split; [intros H; by destruct (H t1) | done]. }
  destruct (templateMap b !! k2) as [t2|].
  { split; [by split; [| intros (_ & ? & _)] |].
    split; [intros H; by destruct (H t2) | done]. }
  destruct (templateMap b !! k3) as [t3|].
  { split; [by split; [| intros (_ & _ & ?)] |].
    split; [intros H; by destruct (H t3) | done]. }
  done.
Qed.

End Registry.

(** On the small site the page [blog/hello.html] has neither a layout of
    its own nor one of its directory, and gets the global default. *)
Lemma lookUpTemplate_tiers_witness :
  initTemplateMap (NewBuilder site.cfg) ["layouts/default.html"] site.root
  = Ok site.builder_loaded
  ∧ lookUpTemplate site.builder_loaded "blog/hello.html" = Ok "<html>".
Proof.
  assert (H : initTemplateMap (NewBuilder site.cfg) ["layouts/default.html"]
                site.root = Ok site.builder_loaded) by reflexivity.
  split; [exact H |].
  apply (proj1 (proj2 (proj2 (proj2 (proj2
           (lookUpTemplate_tiers _ _ _ _ "blog/hello.html" H)))))
           "<html>");
    reflexivity.
Defined.

(** ** The render context: precedence *)

Section Context_.
Context {W : Type} {sys : Sys W}.

(** What the render context holds at a key: the front-matter value, else
    the base value, else (at [contents]) the rendered content. *)
Lemma getRenderContext_lookup (b : Builder) (filedata : FileData)
    (k : string) :
  ∃ rc, getRenderContext b filedata = Ok rc
    ∧ rc !! k =
      match FrontMatter_AsMap (FrontMatter filedata) !! k with
      | Some v => Some v
      | None =>
          match baseRenderContext b !! k with
          | Some v => Some v
          | None =>
              if decide (k = "contents")
              then Some (VString (Content filedata)) else None
          end
      end.
Proof.
  eexists. split; [apply getRenderContext_union |].
  rewrite !lookup_union.
  destruct (FrontMatter_AsMap _ !! k) as [v|]; simpl.
  { by rewrite union_Some_l. }
  rewrite (left_id_L None (∪)).
  destruct (baseRenderContext b !! k) as [v|]; simpl.
  { by rewrite union_Some_l. }
  rewrite (left_id_L None (∪)).
  case_decide as Hk.
  - subst k. apply lookup_singleton_eq.
  - by apply lookup_singleton_ne.
Qed.

(** C2 (as amended): the render context maps [contents] to the rendered
    HTML provided neither the base context nor the front matter defines
    [contents]; at every key that the front matter defines it holds the
    front-matter value, also when the base context defines the key too;
    at a key that only the base context defines it holds the base value;
    and base [{a:1}], front matter [{a:2, b:3}], content [X] give exactly
    [{contents:X, a:2, b:3}]. *)
Theorem getRenderContext_precedence (b : Builder) (filedata : FileData) :
  ∃ rc, getRenderContext b filedata = Ok rc
    ∧ (FrontMatter_AsMap (FrontMatter filedata) !! "contents" = None →
       baseRenderContext b !! "contents" = None →
       rc !! "contents" = Some (VString (Content filedata)))
    ∧ (∀ k v, FrontMatter_AsMap (FrontMatter filedata) !! k = Some v →
              rc !! k = Some v)
    ∧ (∀ k v, FrontMatter_AsMap (FrontMatter filedata) !! k = None →
              baseRenderContext b !! k = Some v → rc !! k = Some v)
    ∧ (∀ k, is_Some (rc !! k) ↔
            k = "contents" ∨ is_Some (baseRenderContext b !! k)
            ∨ is_Some (FrontMatter_AsMap (FrontMatter filedata) !! k))
    ∧ (baseRenderContext b = {[ "a" := VInt 1 ]} →
       FrontMatter_AsMap (FrontMatter filedata)
       = {[ "a" := VInt 2; "b" := VInt 3 ]} →
       Content filedata = "X" →
       rc = {[ "contents" := VString "X"; "a" := VInt 2; "b" := VInt 3 ]}).
Proof.
  eexists. split; [apply getRenderContext_union |].
  assert (Hl : ∀ k, (FrontMatter_AsMap (FrontMatter filedata)
                     ∪ (baseRenderContext b
                        ∪ {[ "contents" := VString (Content filedata) ]})) !! k
               = match FrontMatter_AsMap (FrontMatter filedata) !! k with
                 | Some v => Some v
                 | None =>
                     match baseRenderContext b !! k with
                     | Some v => Some v
                     | None =>
                         if decide (k = "contents")
                         then Some (VString (Content filedata)) else None
                     end
                 end).
  { intros k. destruct (getRenderContext_lookup b filedata k) as (rc & Hrc & Hk).
    rewrite getRenderContext_union in Hrc. by injection Hrc as <-. }
  split; [| split; [| split; [| split]]].
  - intros Hfm Hbase. by rewrite Hl, Hfm, Hbase.
  - intros k v Hfm. by rewrite Hl, Hfm.
  - intros k v Hfm Hbase. by rewrite Hl, Hfm, Hbase.
  - intros k. rewrite Hl.
    destruct (FrontMatter_AsMap _ !! k) as [v|].
    { split; [intros _; right; right; by eexists | by eexists]. }
    destruct (baseRenderContext b !! k) as [v|].
    { split; [intros _; right; left; by eexists | by eexists]. }
    case_decide as Hk.
    + split; [by left | by eexists].
    + split; [by intros [? ?] |]. intros [? | [[? ?] | [? ?]]]; done.
  - intros -> -> ->. by vm_compute.
Qed.

(** C6 (as amended): when the front matter defines the key [contents] the
    render context holds the front-matter value there, and when only the
    base context defines it the render context holds the base value: the
    rendered HTML is assigned first and the two merges that follow
    override it. *)
Theorem getRenderContext_contents_collision (b : Builder)
    (filedata : FileData) :
  ∃ rc, getRenderContext b filedata = Ok rc
    ∧ (∀ v, FrontMatter_AsMap (FrontMatter filedata) !! "contents" = Some v →
            rc !! "contents" = Some v)
    ∧ (∀ v, FrontMatter_AsMap (FrontMatter filedata) !! "contents" = None →
            baseRenderContext b !! "contents" = Some v →
            rc !! "contents" = Some v).
Proof.
  destruct (getRenderContext_lookup b filedata "contents") as (rc & Hrc & Hk).
  exists rc. split; [done |]. split.
  - intros v Hfm. by rewrite Hk, Hfm.
  - intros v Hfm Hbase. by rewrite Hk, Hfm, Hbase.
Qed.

End Context_.

Lemma getRenderContext_precedence_witness :
  getRenderContext (site.builder_with {[ "a" := VInt 1 ]})
    (site.page "X" {[ "a" := VInt 2; "b" := VInt 3 ]})
  = Ok {[ "contents" := VString "X"; "a" := VInt 2; "b" := VInt 3 ]}.
Proof.
  destruct (getRenderContext_precedence
              (site.builder_with {[ "a" := VInt 1 ]})
              (site.page "X" {[ "a" := VInt 2; "b" := VInt 3 ]}))
    as (rc & Hrc & _ & _ & _ & _ & Hex).
  rewrite Hrc. f_equal. apply Hex; vm_compute; reflexivity.
Defined.

(** A base context that defines [contents] hides the rendered HTML. *)
Lemma getRenderContext_base_contents_counterexample :
  ∃ rc, getRenderContext (site.builder_with {[ "contents" := VString "site" ]})
          (site.page "<p>top</p>" ∅) = Ok rc
    ∧ rc !! "contents" = Some (VString "site")
    ∧ rc !! "contents"
      ≠ Some (VString (Content (site.page "<p>top</p>" ∅))).
Proof.
  eexists. split; [apply getRenderContext_union |].
  split; [vm_compute; reflexivity | vm_compute; discriminate].
Qed.

Lemma getRenderContext_contents_collision_witness :
  ∃ rc, getRenderContext (site.builder_with {[ "contents" := VString "site" ]})
          (site.page "<p>top</p>" ∅) = Ok rc
    ∧ rc !! "contents" = Some (VString "site").
Proof.
  destruct (getRenderContext_contents_collision
              (site.builder_with {[ "contents" := VString "site" ]})
              (site.page "<p>top</p>" ∅)) as (rc & Hrc & _ & Hbase).
  exists rc. split; [exact Hrc |]. apply Hbase; vm_compute; reflexivity.
Defined.

(** A front matter that defines [contents] hides the rendered HTML. *)
Lemma getRenderContext_front_contents_counterexample :
  ∃ rc, getRenderContext (site.builder_with ∅)
          (site.page "<p>top</p>" {[ "contents" := VString "mine" ]}) = Ok rc
    ∧ rc !! "contents" = Some (VString "mine")
    ∧ rc !! "contents"
      ≠ Some (VString
                (Content (site.page "<p>top</p>"
                            {[ "contents" := VString "mine" ]}))).
Proof.
  eexists. split; [apply getRenderContext_union |].
  split; [vm_compute; reflexivity | vm_compute; discriminate].
Qed.

(** ** The extracted document *)

Section Extract.
Context {W : Type} {sys : Sys W}.

(** C4 (as amended): [getFileData] returns a document exactly when the
    file is read, the front matter parsed, and the remainder converted;
    the content of the document is the Markdown rendering of the
    remainder; its front matter is the zero value when the remainder is
    byte-identical to the file, and the parsed metadata otherwise, so it
    is the zero value if and only if the remainder is the file unchanged
    or the parsed metadata is itself the zero value. *)
Theorem getFileData_frontMatter (b : Builder) (markdownPath : string) (w : W)
    (filedata : FileData) :
  getFileData b markdownPath w = Ok filedata ↔
  ∃ content yfm markdown g,
    os_ReadFile markdownPath w = Ok content
    ∧ frontmatter_Parse content = Ok (yfm, markdown)
    ∧ gm b = Some g
    ∧ Convert g markdown = Ok (Content filedata)
    ∧ Path filedata = markdownPath
    ∧ (markdown = content → FrontMatter filedata = zeroFrontMatter)
    ∧ (markdown ≠ content → FrontMatter filedata = yfm)
    ∧ (FrontMatter filedata = zeroFrontMatter ↔
       markdown = content ∨ yfm = zeroFrontMatter).
Proof.
  unfold getFileData. split.
  - destruct (os_ReadFile markdownPath w) as [content | |] eqn:Hr; [| done | done].
    destruct (frontmatter_Parse content) as [[yfm markdown] | |] eqn:Hp;
      [| done | done].
    destruct (gm b) as [g|] eqn:Hg; [| done].
    destruct (Convert g markdown) as [html | |] eqn:Hc; [| done | done].
    intros Hfd. exists content, yfm, markdown, g.
    destruct (String.eqb_spec content markdown) as [<- | Hne];
      injection Hfd as <-; simpl.
    + split_and!; try done. split; [by left | done].
    + split_and!; try done.
      split; [intros ->; by right | by intros [-> | ->]].
  - intros (content & yfm & markdown & g & -> & -> & -> & Hc & Hp & Hz & Hnz & _).
    rewrite Hc. destruct filedata as [p c fm]. simpl in *. subst p.
    destruct (String.eqb_spec content markdown) as [<- | Hne].
    + by rewrite Hz.
    + by rewrite Hnz.
Qed.

End Extract.

Lemma getFileData_frontMatter_witness :
  ∃ filedata, getFileData site.builder "index.md" site.root = Ok filedata
    ∧ Content filedata = "<p>top</p>"
    ∧ FrontMatter filedata = zeroFrontMatter.
Proof.
  exists {| Path := "index.md"; Content := "<p>top</p>";
            FrontMatter := zeroFrontMatter |}.
  split; [| done].
  apply (proj2 (getFileData_frontMatter site.builder "index.md" site.root _)).
  exists "top", zeroFrontMatter, "top", tt.
  repeat split; try (vm_compute; reflexivity); auto.
Defined.

(** A file with an empty front-matter block: the parser returns a
    remainder that differs from the file, and the metadata of the
    document is still the zero value. *)
Lemma getFileData_empty_block_counterexample :
  ∃ content markdown filedata,
    mem.ReadFile "empty.md" site.root = Ok content
    ∧ mem.Parse content = Ok (zeroFrontMatter, markdown)
    ∧ getFileData site.builder "empty.md" site.root = Ok filedata
    ∧ ¬ (FrontMatter filedata = zeroFrontMatter ↔ markdown = content).
Proof.
  exists (mem.unlines ["---"; "---"; "body"]), "body",
    {| Path := "empty.md"; Content := "<p>body</p>";
       FrontMatter := zeroFrontMatter |}.
  split; [vm_compute; reflexivity |]. split; [vm_compute; reflexivity |].
  split; [vm_compute; reflexivity |].
  intros [H _]. specialize (H eq_refl). vm_compute in H. discriminate H.
Qed.

(** ** The static copy *)

Section Static.
Context {W : Type} {sys : Sys W} {fp : FilePath}.

(** C9: when the static-assets directory does not exist, [copyStatic]
    (with any fuel but zero) copies nothing and returns nil: all it does
    is log the notice; and [Run], once the distribution directory is made,
    goes on to the discovery of the Markdown files in the world that the
    notice leaves. *)
Theorem copyStatic_missing_dir (fuel : nat) (b : Builder) (w w1 : W) :
  (∀ src dist w e,
     os_Stat src w = StatNotExist e →
     copyStatic (S fuel) src dist w
     = Some (Ok tt,
             log_Printf
               "[INFO] static directory not found. skip copying static files."
               [] w))
  ∧ (∀ e,
       createDistDir (Dist (config b)) true w = (Ok tt, w1) →
       os_Stat (Static (config b))
         (log_Printf ("[INFO] copying static files from %s to %s" ++ nl)
            [VString (Static (config b)); VString (Dist (config b))] w1)
       = StatNotExist e →
       Run_prepare (S fuel) b w
       = Some (Run_load b
                 (log_Printf
                    "[INFO] static directory not found. skip copying static files."
                    []
                    (log_Printf
                       ("[INFO] copying static files from %s to %s" ++ nl)
                       [VString (Static (config b)); VString (Dist (config b))]
                       w1)))).
Proof.
  assert (Hskip : ∀ src dist w e,
     os_Stat src w = StatNotExist e →
     copyStatic (S fuel) src dist w
     = Some (Ok tt,
             log_Printf
               "[INFO] static directory not found. skip copying static files."
               [] w)).
  { intros src dist w' e Hstat. simpl. unfold existDir. by rewrite Hstat. }
  split; [exact Hskip |].
  intros e Hdist Hstat. unfold Run_prepare. rewrite Hdist.
  by rewrite (Hskip _ _ _ _ Hstat).
Qed.

End Static.

(** The site without a static directory: the preparation of [Run] makes
    the distribution directory and nothing else, the build succeeds, and
    the distribution directory holds the rendered page only. *)
Lemma copyStatic_missing_dir_witness :
  Run_prepare 1 (NewBuilder site.cfg) site.plain
  = Some (Ok (site.builder, ["index.md"]), site.plain_prepared)
  ∧ Run_returns 1 (NewBuilder site.cfg) site.plain None site.plain_built
  ∧ filter (fun kv => mem.under "dist" (fst kv) = true)
      (mem.nodes site.plain_built)
    = {[ "dist" := mem.DirNode;
         "dist/index.html" := mem.FileNode "<html><p>top</p>" ]}.
Proof.
  assert (Hprep : Run_prepare 1 (NewBuilder site.cfg) site.plain
                  = Some (Ok (site.builder, ["index.md"]), site.plain_prepared)).
  { set (w1 := snd (createDistDir "dist" true site.plain)).
    assert (H := proj2 (copyStatic_missing_dir 0 (NewBuilder site.cfg)
                          site.plain w1) mem.ENOENT).
    etransitivity; [apply H; vm_refl | vm_refl]. }
  split_and!; [exact Hprep | | vm_refl].
  assert (Hrender : renderTask site.builder "index.md" site.plain_prepared
                    = (Ok tt, site.plain_built)) by vm_refl.
  apply (Run_tasks 1 (NewBuilder site.cfg) site.plain site.builder
           ["index.md"] site.plain_prepared
           (site.plain_tasks true true None)
           (site.plain_tasks true true (Some None)) None Hprep);
    [| reflexivity | | reflexivity].
  - eapply rtc_l;
      [exact (step_render_ok site.builder
                (site.plain_tasks false false None) 0 "index.md"
                site.plain_built eq_refl eq_refl Hrender) |].
    apply rtc_once.
    exact (step_close site.builder (site.plain_tasks true false None)
             eq_refl eq_refl eq_refl).
  - exact (step_range_end site.builder (site.plain_tasks true true None)
             eq_refl eq_refl eq_refl).
Defined.

(** ** The output path *)

(** C10: with [from = ".md"], [replaceExt] replaces the final extension
    of the path by [to] exactly when that extension lower-cased is [.md]
    (that is, when it is one of [.md], [.Md], [.mD], [.MD]) and returns
    the path unchanged otherwise; a path that ends in [.MD] is converted,
    although the discovery of [getFilePathsByExt] with the suffix [.md]
    does not list a file of that name. *)
Theorem replaceExt_md_case_insensitive {goos : GOOS} (filePath to : string) :
  (strings.ToLower (filepath.Ext filePath) = ".md" →
   ∃ stem, filePath = stem ++ filepath.Ext filePath
           ∧ replaceExt filePath ".md" to = stem ++ to)
  ∧ (strings.ToLower (filepath.Ext filePath) ≠ ".md" →
     replaceExt filePath ".md" to = filePath)
  ∧ (strings.ToLower (filepath.Ext filePath) = ".md" ↔
     filepath.Ext filePath = ".md" ∨ filepath.Ext filePath = ".Md"
     ∨ filepath.Ext filePath = ".mD" ∨ filepath.Ext filePath = ".MD")
  ∧ (∀ stem : string,
       replaceExt (stem ++ ".MD") ".md" to = stem ++ to
       ∧ strings.HasSuffix (stem ++ ".MD") ".md" = false
       ∧ ∀ path calls filePaths,
           walkFn ".md"
             (WalkInfo path {| Name := stem ++ ".MD"; IsDir := false |} :: calls)
             filePaths
           = walkFn ".md" calls filePaths).
Proof.
  repeat split.
  - intros Hlow. destruct (Ext_suffix filePath) as [stem Hstem].
    exists stem. split; [done | by apply replaceExt_swap].
  - intros Hne. by apply replaceExt_keep.
  - apply ToLower_md.
  - apply ToLower_md.
  - apply replaceExt_upper_md.
  - apply HasSuffix_upper_md.
  - intros path calls filePaths. simpl. by rewrite HasSuffix_upper_md.
Qed.

Lemma replaceExt_md_case_insensitive_witness :
  strings.ToLower (@filepath.Ext Unix "blog/hello.MD") = ".md"
  ∧ ∃ stem, "blog/hello.MD" = stem ++ @filepath.Ext Unix "blog/hello.MD"
            ∧ @replaceExt Unix "blog/hello.MD" ".md" ".html" = stem ++ ".html".
Proof.
  split; [reflexivity |].
  apply (proj1 (@replaceExt_md_case_insensitive Unix "blog/hello.MD" ".html")).
  reflexivity.
Defined.

(** ** The slug of a page *)






(** ** The order of the steps of [renderContent] *)

Lemma mem_createDistFile_created (dist f : string) (w w1 : mem.fs) :
  createDistFile dist w = (Ok f, w1) →
  f = unix.Clean dist ∧ mem.nodes w1 !! f = Some (mem.FileNode EmptyString).
Proof.
  unfold createDistFile, mbind, M_bind, reads, mret, M_ret.
  destruct (existDir (Dir dist) w) as [ex | |]; [| done | done].
  set (m := if negb ex then os_MkdirAll (Dir dist) else _).
  destruct (m w) as [[[] | |] w']; [| done | done].
  simpl. unfold mem.Create.
  destruct (mem.node_at w' (unix.Clean dist)) as [[|c] |];
    [done | | ];
    (destruct (mem.node_at w' (unix.Dir (unix.Clean dist))) as [[|c'] |];
     [| done | done]);
    intros [= <- <-]; (split; [done |]); simpl; apply lookup_insert_eq.
Qed.

(** C8 (as amended): [renderContent] computes the output path, then
    creates the missing destination directories and creates the
    destination file, and only then resolves the template, extracts the
    document, fills in slug and image, builds the render context and
    writes the rendered template; each failure ends the call.  When the
    template resolution or the extraction fails, the call leaves the world
    as the creation of the destination file left it: the (empty)
    destination file is there. *)
Theorem renderContent_order {W : Type} {sys : Sys W} {goos : GOOS}
    {fp : FilePath} (b : Builder) (markdownPath : string) (w : W) :
  let htmlPath := convertMarkdownPathToHtmlPath markdownPath in
  let dist := Join [Dist (config b); htmlPath] in
  (∀ o w1, createDistFile dist w = (o, w1) → (∀ f, o ≠ Ok f) →
           renderContent b markdownPath w
           = (match o with Err e => Err e | _ => Panic end, w1))
  ∧ (∀ distFile w1,
       createDistFile dist w = (Ok distFile, w1) →
       (∀ e, lookUpTemplate b htmlPath = Err e →
             renderContent b markdownPath w = (Err e, w1))
       ∧ (∀ template e,
            lookUpTemplate b htmlPath = Ok template →
            getFileData b markdownPath w1 = Err e →
            renderContent b markdownPath w = (Err e, w1))
       ∧ (∀ template filedata e w2,
            lookUpTemplate b htmlPath = Ok template →
            getFileData b markdownPath w1 = Ok filedata →
            setOgImage b markdownPath
              (setPostSlug htmlPath (FrontMatter filedata)) w1 = (Err e, w2) →
            renderContent b markdownPath w = (Err e, w2))
       ∧ (∀ template filedata fm w2 renderContext,
            lookUpTemplate b htmlPath = Ok template →
            getFileData b markdownPath w1 = Ok filedata →
            setOgImage b markdownPath
              (setPostSlug htmlPath (FrontMatter filedata)) w1 = (Ok fm, w2) →
            getRenderContext b (withFrontMatter filedata fm) = Ok renderContext →
            renderContent b markdownPath w
            = FRender template distFile renderContext w2))
  ∧ (∀ (dist' f : string) (m m1 : mem.fs),
       @createDistFile mem.fs mem.system unix_paths dist' m = (Ok f, m1) →
       mem.nodes m1 !! unix.Clean dist' = Some (mem.FileNode EmptyString)).
Proof.
  intros htmlPath dist. split; [| split].
  - intros o w1 Hc Ho. by apply renderContent_createDistFile_fails.
  - intros distFile w1 Hc.
    pose proof (renderContent_created _ _ _ _ _ Hc) as Hr.
    fold htmlPath in Hr. split_and!.
    + intros e He. by rewrite Hr, He.
    + intros t e Ht He. by rewrite Hr, Ht, He.
    + intros t fd e w2 Ht Hd Hog. by rewrite Hr, Ht, Hd, Hog.
    + intros t fd fm w2 rc Ht Hd Hog Hrc. by rewrite Hr, Ht, Hd, Hog, Hrc.
  - intros dist' f m m1 Hc.
    by destruct (mem_createDistFile_created _ _ _ _ Hc) as [-> ?].
Qed.

(** On the tree without layouts the rendering of [a.md] fails at the
    template, after it has created [dist/a.html]. *)
Lemma renderContent_order_witness :
  ∃ w1, renderContent site.builder_bare "a.md" site.bare_prepared
        = (Err (errors_New "template not found"), w1)
    ∧ mem.nodes w1 !! "dist/a.html" = Some (mem.FileNode EmptyString).
Proof.
  pose (w1 := snd (createDistFile "dist/a.html" site.bare_prepared)).
  assert (Hc : createDistFile
                 (Join [Dist (config site.builder_bare);
                        convertMarkdownPathToHtmlPath "a.md"]) site.bare_prepared
               = (Ok "dist/a.html", w1)) by vm_refl.
  exists w1. split.
  - apply (proj1 (proj1 (proj2 (renderContent_order site.builder_bare "a.md"
                                  site.bare_prepared)) "dist/a.html" w1 Hc)).
    vm_refl.
  - apply (proj2 (proj2 (renderContent_order site.builder_bare "a.md"
                           site.bare_prepared)) "dist/a.html" "dist/a.html"
                   site.bare_prepared w1 Hc).
Defined.

(** The destination file of [a.md] does not exist before the call; the
    template resolution fails; and the file exists after the call. *)
Lemma renderContent_creates_file_counterexample :
  mem.nodes site.bare_prepared !! "dist/a.html" = None
  ∧ lookUpTemplate site.builder_bare "a.html"
    = Err (errors_New "template not found")
  ∧ fst (renderContent site.builder_bare "a.md" site.bare_prepared)
    = Err (errors_New "template not found")
  ∧ mem.nodes (snd (renderContent site.builder_bare "a.md" site.bare_prepared))
      !! "dist/a.html" = Some (mem.FileNode EmptyString).
Proof. split_and!; vm_refl. Qed.

(** ** The rendering tasks *)

Section Tasks.
Context {W : Type} {sys : Sys W} {goos : GOOS} {fp : FilePath}.
Implicit Types (b : Builder) (s : @run_state W) (w : W).

Lemma forallb_is_finished_lookup (l : list task) (i : nat) (t : task) :
  forallb is_finished l = true → l !! i = Some t → is_finished t = true.
Proof.
  intros Hall Hi. rewrite forallb_forall in Hall. apply Hall.
  apply list_elem_of_In. by eapply list_elem_of_lookup_2.
Qed.

Lemma run_inv_init w markdownFiles : run_inv (run_init w markdownFiles).
Proof.
  split; simpl; try done.
  - intros i e Hi. apply list_lookup_fmap_Some in Hi as (? & ? & ?). done.
  - intros i j e e' Hi. apply list_lookup_fmap_Some in Hi as (? & ? & ?). done.
Qed.

(** A task that is not finished keeps the channel open and [Run] from
    returning nil. *)
Lemma run_inv_unfinished s i t :
  run_inv s → tasks s !! i = Some t → is_finished t = false →
  closed s = false ∧ returned s ≠ Some None.
Proof.
  intros Hinv Hi Ht.
  assert (Hc : closed s = false).
  { destruct (closed s) eqn:Hc; [| done].
    pose proof (forallb_is_finished_lookup _ _ _ (inv_closed s Hinv Hc) Hi).
    congruence. }
  split; [done |]. intros Hr. apply (inv_nil s Hinv) in Hr. congruence.
Qed.

(** Replacing an unfinished task by a task that has handed over no
    error keeps the invariant (for the same channel and result). *)
Lemma run_inv_update s i t t' w' :
  run_inv s → tasks s !! i = Some t → is_finished t = false →
  (∀ e, t' ≠ Finished (Some e)) →
  run_inv {| world := w'; tasks := <[i := t']> (tasks s); closed := closed s;
             returned := returned s; panicked := false |}.
Proof.
  intros Hinv Hi Ht Ht'.
  destruct (run_inv_unfinished s i t Hinv Hi Ht) as [Hc Hr].
  assert (Hother : ∀ j e, <[i := t']> (tasks s) !! j = Some (Finished (Some e)) →
                          tasks s !! j = Some (Finished (Some e))).
  { intros j e Hj. destruct (decide (i = j)) as [<- | Hne].
    - apply list_lookup_insert_Some in Hj as [(_ & Heq & _) | (? & _)];
        [by destruct (Ht' e) | done].
    - by rewrite list_lookup_insert_ne in Hj. }
  split; simpl.
  - intros j e Hj. by apply (inv_handed s Hinv j), Hother.
  - intros j k e e' Hj Hk. eapply (inv_single s Hinv); by apply Hother.
  - intros e He. destruct (inv_error s Hinv e He) as [j Hj]. exists j.
    rewrite list_lookup_insert_ne; [done |]. intros <-.
    rewrite Hi in Hj. by injection Hj as ->.
  - by rewrite Hc.
  - done.
Qed.

Lemma run_inv_step b s s' : run_step b s s' → run_inv s → run_inv s'.
Proof.
  intros Hstep Hinv. destruct Hstep as
    [s i path w' Hp Hi Hr | s i path e w' Hp Hi Hr | s i path w' Hp Hi Hr
    | s i e Hp Hi Hr | s Hp Hc Hall | s Hp Hc Hr].
  - by apply (run_inv_update s i (Spawned path)).
  - by apply (run_inv_update s i (Spawned path)).
  - destruct Hinv. by split.
  - destruct (run_inv_unfinished s i (Sending e) Hinv Hi eq_refl) as [Hc _].
    assert (Hnone : ∀ j e', tasks s !! j ≠ Some (Finished (Some e'))).
    { intros j e' Hj. apply (inv_handed s Hinv) in Hj. congruence. }
    assert (Hnew : ∀ j e', <[i := Finished (Some e)]> (tasks s) !! j
                           = Some (Finished (Some e')) → j = i ∧ e' = e).
    { intros j e' Hj. destruct (decide (i = j)) as [<- | Hne].
      - apply list_lookup_insert_Some in Hj as [(_ & Heq & _) | (? & _)];
          [by injection Heq as -> | done].
      - rewrite list_lookup_insert_ne in Hj by done. by destruct (Hnone j e'). }
    split; simpl.
    + intros j e' Hj. by destruct (Hnew j e' Hj) as [_ ->].
    + intros j k e1 e2 Hj Hk.
      destruct (Hnew j e1 Hj) as [-> _]. by destruct (Hnew k e2 Hk) as [-> _].
    + intros e' [= <-]. exists i. apply list_lookup_insert_eq.
      by eapply lookup_lt_Some.
    + by rewrite Hc.
    + done.
  - destruct Hinv. by split.
  - split; simpl; try done.
    + intros j e Hj. apply (inv_handed s Hinv) in Hj. congruence.
    + apply (inv_single s Hinv).
    + intros _. by apply (inv_closed s Hinv).
Qed.

Lemma run_inv_reaches b w markdownFiles s :
  run_reaches b w markdownFiles s → run_inv s.
Proof.
  unfold run_reaches. intros Hrtc.
  apply (rtc_ind_r (R := run_step b) (fun s => run_inv s)
           (run_init w markdownFiles));
    [apply run_inv_init | | done].
  intros s1 s2 _ Hstep IH. by eapply run_inv_step.
Qed.

(** [Run] has returned nil: every task has finished with nil. *)
Lemma run_inv_nil s :
  run_inv s → returned s = Some None →
  Forall (fun t => t = Finished None) (tasks s).
Proof.
  intros Hinv Hr. apply Forall_lookup. intros i t Hi.
  pose proof (forallb_is_finished_lookup _ _ _
                (inv_closed s Hinv (inv_nil s Hinv Hr)) Hi) as Hfin.
  destruct t as [| | [e|]]; try done.
  apply (inv_handed s Hinv) in Hi. congruence.
Qed.

(** A task that has failed stays failed. *)
Lemma task_failed_step b s s' i t :
  run_step b s s' → tasks s !! i = Some t → task_failed t →
  ∃ t', tasks s' !! i = Some t' ∧ task_failed t'.
Proof.
  intros Hstep Hi Ht. destruct Hstep as
    [s j path w' Hp Hj Hr | s j path e w' Hp Hj Hr | s j path w' Hp Hj Hr
    | s j e Hp Hj Hr | s Hp Hc Hall | s Hp Hc Hr]; simpl; eauto.
  - destruct (decide (j = i)) as [-> | Hne]; [| rewrite list_lookup_insert_ne; eauto].
    rewrite Hi in Hj. injection Hj as ->. done.
  - destruct (decide (j = i)) as [-> | Hne]; [| rewrite list_lookup_insert_ne; eauto].
    rewrite Hi in Hj. injection Hj as ->. done.
  - destruct (decide (j = i)) as [-> | Hne]; [| rewrite list_lookup_insert_ne; eauto].
    exists (Finished (Some e)). split; [| done].
    apply list_lookup_insert_eq. by eapply lookup_lt_Some.
Qed.

Lemma task_failed_rtc b s s' i t :
  rtc (run_step b) s s' → tasks s !! i = Some t → task_failed t →
  ∃ t', tasks s' !! i = Some t' ∧ task_failed t'.
Proof.
  intros Hrtc. revert t. induction Hrtc as [s | s s1 s2 Hstep _ IH]; intros t Hi Ht.
  - eauto.
  - destruct (task_failed_step _ _ _ _ _ Hstep Hi Ht) as (t1 & Hi1 & Ht1). eauto.
Qed.

(** The weights of the tasks after one of them changed. *)
Lemma task_weight_insert (l : list task) (i : nat) (t t' : task) :
  l !! i = Some t →
  foldr (fun t n => task_weight t + n) 0 (<[i := t']> l) + task_weight t
  = foldr (fun t n => task_weight t + n) 0 l + task_weight t'.
Proof.
  revert i. induction l as [|a l IH]; intros [|i] Hi; simpl in *; try done.
  - injection Hi as ->. lia.
  - specialize (IH i Hi). lia.
Qed.

(** Every step uses up some of the bound: executions are finite. *)
Lemma run_step_measure b s s' :
  run_step b s s' → run_measure s' < run_measure s.
Proof.
  intros Hstep. destruct Hstep as
    [s i path w' Hp Hi Hr | s i path e w' Hp Hi Hr | s i path w' Hp Hi Hr
    | s i e Hp Hi Hr | s Hp Hc Hall | s Hp Hc Hr];
    unfold run_measure; simpl; rewrite Hp; simpl.
  - pose proof (task_weight_insert _ _ _ (Finished None) Hi). simpl in *. lia.
  - pose proof (task_weight_insert _ _ _ (Sending e) Hi). simpl in *. lia.
  - lia.
  - pose proof (task_weight_insert _ _ _ (Finished (Some e)) Hi).
    rewrite Hr. simpl in *. lia.
  - rewrite Hc. lia.
  - rewrite Hc, Hr. lia.
Qed.

Lemma unfinished_task (l : list task) :
  forallb is_finished l = false →
  ∃ i t, l !! i = Some t ∧ is_finished t = false.
Proof.
  induction l as [|a l IH]; simpl; [done |].
  destruct (is_finished a) eqn:Ha; simpl.
  - intros (i & t & Hi & Ht)%IH. by exists (S i), t.
  - intros _. by exists 0, a.
Qed.

(** As long as [Run] has not returned and no goroutine has panicked, some
    goroutine can take a step: there is no deadlock. *)
Lemma run_step_progress b s :
  run_inv s → returned s = None → panicked s = false → ∃ s', run_step b s s'.
Proof.
  intros Hinv Hr Hp.
  destruct (forallb is_finished (tasks s)) eqn:Hall.
  - destruct (closed s) eqn:Hc.
    + eexists. by apply step_range_end.
    + eexists. by apply step_close.
  - apply unfinished_task in Hall as (i & t & Hi & Ht).
    destruct t as [path | e | r]; [| | done].
    + destruct (renderTask b path (world s)) as [[[] | e |] w'] eqn:Hrender.
      * eexists. by eapply step_render_ok.
      * eexists. by eapply step_render_err.
      * eexists. by eapply step_render_panic.
    + eexists. by eapply step_receive.
Qed.

End Tasks.

(** ** [Run] *)

Section Run.
Context {W : Type} {sys : Sys W} {goos : GOOS} {fp : FilePath}.
Implicit Types (b : Builder) (s : @run_state W) (w : W).

(** Once [Run] has returned, what it returned does not change. *)
Lemma returned_step b s s' r :
  run_step b s s' → returned s = Some r → returned s' = Some r.
Proof. intros Hstep Hr. destruct Hstep; simpl; congruence. Qed.

Lemma returned_rtc b s s' r :
  rtc (run_step b) s s' → returned s = Some r → returned s' = Some r.
Proof.
  intros Hrtc. induction Hrtc as [| s s1 s2 Hstep _ IH]; [done |].
  intros Hr. apply IH. by eapply returned_step.
Qed.

(** When every task has finished with nil, the tasks take no more steps. *)
Lemma all_succeeded_step b s s' :
  run_step b s s' → all_succeeded s → all_succeeded s'.
Proof.
  unfold all_succeeded. intros Hstep Hall.
  destruct Hstep as
    [s i path w' Hp Hi Hr | s i path e w' Hp Hi Hr | s i path w' Hp Hi Hr
    | s i e Hp Hi Hr | s Hp Hc Hall' | s Hp Hc Hr]; simpl; try done;
    by pose proof (proj1 (Forall_lookup _ _) Hall _ _ Hi).
Qed.

Lemma all_succeeded_rtc b s s' :
  rtc (run_step b) s s' → all_succeeded s → all_succeeded s'.
Proof.
  intros Hrtc. induction Hrtc as [| s s1 s2 Hstep _ IH]; [done |].
  intros Hall. apply IH. by eapply all_succeeded_step.
Qed.

Lemma all_succeeded_finished s :
  all_succeeded s → forallb is_finished (tasks s) = true.
Proof.
  unfold all_succeeded. intros Hall. apply forallb_forall. intros t Hin.
  apply list_elem_of_In in Hin.
  by rewrite (proj1 (Forall_forall _ _) Hall t Hin).
Qed.

(** When every task has finished with nil, [Run] returns nil. *)
Lemma all_succeeded_returns b s :
  run_inv s → all_succeeded s → panicked s = false →
  ∃ s', rtc (run_step b) s s' ∧ returned s' = Some None.
Proof.
  intros Hinv Hall Hp. destruct (returned s) as [[e|]|] eqn:Hr.
  - destruct (inv_error s Hinv e Hr) as [i Hi].
    by pose proof (proj1 (Forall_lookup _ _) Hall _ _ Hi).
  - exists s. by split.
  - destruct (closed s) eqn:Hc.
    + eexists. split; [apply rtc_once; by apply step_range_end | done].
    + eexists. split.
      * eapply rtc_l; [apply step_close; [done | done |];
                       by apply all_succeeded_finished |].
        apply rtc_once. by apply step_range_end.
      * done.
Qed.

(** A sequential phase that fails makes the preparation fail. *)
Lemma Run_prepare_phase_fails fuel b w e w' :
  phase_fails fuel b w e w' → Run_prepare fuel b w = Some (Err e, w').
Proof.
  unfold Run_prepare, Run_load, mbind, M_bind, reads, logf.
  intros [Hd | w1 Hd Hs | w1 Hd Hs Hm | w1 w3 md Hd Hs Hm -> Hl
         | w1 w3 md tf Hd Hs Hm -> Hl Ht]; rewrite Hd; try rewrite Hs; try done.
  - by rewrite Hm.
  - by rewrite Hm, Hl.
  - by rewrite Hm, Hl, Ht.
Qed.

(** An error of the preparation is the error of a sequential phase. *)
Lemma Run_prepare_err_phase fuel b w e w' :
  Run_prepare fuel b w = Some (Err e, w') → phase_fails fuel b w e w'.
Proof.
  unfold Run_prepare, Run_load, mbind, M_bind, reads, logf.
  destruct (createDistDir _ true w) as [[[] | e1 |] w1] eqn:Hd; [| | done].
  2: { intros [= <- <-]. by apply dist_fails. }
  destruct (copyStatic fuel _ _ _) as [[[[] | e3 |] w3] |] eqn:Hs;
    [| | done | done].
  2: { intros [= <- <-]. by eapply static_fails. }
  destruct (getFilePathsByExt "." ".md" w3) as [md | e4 |] eqn:Hm; [| | done].
  2: { intros [= <- <-]. by eapply discovery_fails. }
  destruct (getFilePathsByExt (Layouts (config b)) ".html" _)
    as [tf | e5 |] eqn:Hl; [| | done].
  2: { intros [= <- <-]. by eapply layouts_fail. }
  destruct (initTemplateMap b tf _) as [b1 | e6 |] eqn:Ht; [done | | done].
  intros [= <- <-]. by eapply templates_fail.
Qed.

(** [Run] has returned nil: nothing moves any more. *)
Lemma no_step_after_nil b s s' :
  run_inv s → returned s = Some None → ¬ run_step b s s'.
Proof.
  intros Hinv Hr Hstep.
  pose proof (run_inv_nil s Hinv Hr) as Hall.
  destruct Hstep as
    [s i path w' Hp Hi Hr' | s i path e w' Hp Hi Hr' | s i path w' Hp Hi Hr'
    | s i e Hp Hi Hr' | s Hp Hc Hall' | s Hp Hc Hr'];
    try (by pose proof (proj1 (Forall_lookup _ _) Hall _ _ Hi));
    try congruence.
  apply (inv_nil s Hinv) in Hr. congruence.
Qed.

(** What [Run] returns as long as no goroutine panics.  It returns the
    error of the first sequential phase that fails (preparation of the
    distribution directory, static copy, discovery of the Markdown files,
    discovery and loading of the templates), and nothing else; once a
    rendering task has failed [Run] never returns nil; [Run] returns nil
    only when every phase succeeded and every task has finished with nil,
    and then it does return nil; an error [Run] returns is the error of a
    phase or the one a task handed over; and unless a goroutine has
    panicked no state is stuck and every step uses up a finite bound. *)
Theorem Run_fails_iff_a_phase_fails (fuel : nat) b w :
  (∀ e w1, phase_fails fuel b w e w1 →
     Run_returns fuel b w (Some e) w1
     ∧ ∀ r w', Run_returns fuel b w r w' → r = Some e ∧ w' = w1)
  ∧ (∀ b' markdownFiles w0 s,
       Run_prepare fuel b w = Some (Ok (b', markdownFiles), w0) →
       run_reaches b' w0 markdownFiles s →
       (∀ i t, tasks s !! i = Some t → task_failed t →
               ∀ s', rtc (run_step b') s s' → returned s' ≠ Some None)
       ∧ (returned s = Some None → all_succeeded s)
       ∧ (all_succeeded s → panicked s = false →
          (∃ s', rtc (run_step b') s s' ∧ returned s' = Some None)
          ∧ ∀ s' e, rtc (run_step b') s s' → returned s' ≠ Some (Some e))
       ∧ (∀ e, returned s = Some (Some e) →
               ∃ i, tasks s !! i = Some (Finished (Some e)))
       ∧ (returned s = None → panicked s = false → ∃ s', run_step b' s s')
       ∧ (∀ s', run_step b' s s' → run_measure s' < run_measure s))
  ∧ (∀ w', Run_returns fuel b w None w' ↔
       ∃ b' markdownFiles w0 s,
         Run_prepare fuel b w = Some (Ok (b', markdownFiles), w0)
         ∧ run_reaches b' w0 markdownFiles s
         ∧ returned s = Some None ∧ world s = w' ∧ all_succeeded s)
  ∧ (∀ e w', Run_returns fuel b w (Some e) w' →
       phase_fails fuel b w e w'
       ∨ ∃ b' markdownFiles w0 s i,
           Run_prepare fuel b w = Some (Ok (b', markdownFiles), w0)
           ∧ run_reaches b' w0 markdownFiles s
           ∧ tasks s !! i = Some (Finished (Some e)) ∧ world s = w').
Proof.
  split_and!.
  - intros e w1 Hph. apply Run_prepare_phase_fails in Hph as Hprep.
    split; [by apply Run_prepare_err |].
    intros r w' Hret. destruct Hret as [e' w' Hprep' | b' fs w0 s s' r Hprep' _ _ _ _].
    + rewrite Hprep in Hprep'. by injection Hprep' as <- <-.
    + rewrite Hprep in Hprep'. done.
  - intros b' fs w0 s Hprep Hreach.
    pose proof (run_inv_reaches _ _ _ _ Hreach) as Hinv.
    split_and!.
    + intros i t Hi Ht s' Hrtc Hnil.
      assert (Hreach' : run_reaches b' w0 fs s') by (by eapply rtc_trans).
      pose proof (run_inv_reaches _ _ _ _ Hreach') as Hinv'.
      destruct (task_failed_rtc _ _ _ _ _ Hrtc Hi Ht) as (t' & Hi' & Ht').
      pose proof (run_inv_nil s' Hinv' Hnil) as Hall.
      rewrite (proj1 (Forall_lookup _ _) Hall _ _ Hi') in Ht'. done.
    + by apply run_inv_nil.
    + intros Hall Hp. split; [by apply all_succeeded_returns |].
      intros s' e Hrtc Hr.
      assert (Hreach' : run_reaches b' w0 fs s') by (by eapply rtc_trans).
      pose proof (run_inv_reaches _ _ _ _ Hreach') as Hinv'.
      destruct (inv_error s' Hinv' e Hr) as [i Hi].
      pose proof (all_succeeded_rtc _ _ _ Hrtc Hall) as Hall'.
      by pose proof (proj1 (Forall_lookup _ _) Hall' _ _ Hi).
    + by apply inv_error.
    + by apply run_step_progress.
    + intros s'. apply run_step_measure.
  - intros w'. split.
    + intros Hret. inversion Hret as [| b' fs w0 s s' r Hprep Hreach Hnone Hstep Hr];
        subst.
      assert (Hreach' : run_reaches b' w0 fs s') by (by eapply rtc_r).
      exists b', fs, w0, s'. split_and!; try done.
      apply run_inv_nil; [by eapply run_inv_reaches | done].
    + intros (b' & fs & w0 & s & Hprep & Hreach & Hr & <- & _).
      apply rtc_inv_r in Hreach as [<- | (s0 & Hreach0 & Hstep)]; [done |].
      pose proof (run_inv_reaches _ _ _ _ Hreach0) as Hinv0.
      destruct (returned s0) as [r0|] eqn:Hr0.
      * pose proof (returned_step _ _ _ _ Hstep Hr0) as Hr'.
        rewrite Hr in Hr'. injection Hr' as <-.
        by destruct (no_step_after_nil _ _ _ Hinv0 Hr0 Hstep).
      * by eapply Run_tasks.
  - intros e w' Hret.
    inversion Hret as [e' w1 Hprep | b' fs w0 s s' r Hprep Hreach Hnone Hstep Hr];
      subst.
    + left. by apply Run_prepare_err_phase.
    + right. assert (Hreach' : run_reaches b' w0 fs s') by (by eapply rtc_r).
      destruct (inv_error s' (run_inv_reaches _ _ _ _ Hreach') e Hr) as [i Hi].
      by exists b', fs, w0, s', i.
Qed.

End Run.

(** On the tree without a layouts directory the discovery of the layouts
    fails, and that error is what [Run] returns. *)
Lemma Run_fails_iff_a_phase_fails_witness :
  ∃ w', Run_returns 1 (NewBuilder site.cfg) site.orphan (Some mem.ENOENT) w'.
Proof.
  pose (w1 := snd (createDistDir "dist" true site.orphan)).
  pose (w3 := mem.Log
                "[INFO] static directory not found. skip copying static files."
                []
                (mem.Log ("[INFO] copying static files from %s to %s" ++ nl)
                   [VString "static"; VString "dist"] w1)).
  pose (w' := mem.Log ("[INFO] found %d markdown files" ++ nl) [VInt 1] w3).
  exists w'.
  apply (proj1 (Run_fails_iff_a_phase_fails 1 (NewBuilder site.cfg) site.orphan)).
  apply (layouts_fail _ _ _ _ _ w1 w3 ["a.md"]); vm_refl.
Defined.

(** ** The coordinator and the tasks that are still running *)

Section Waiting.
Context {W : Type} {sys : Sys W} {goos : GOOS} {fp : FilePath}.

(** C7 (as amended): [Run] reports success only after every dispatched
    task has finished; it reports a failure as soon as it receives the
    first error from a task, whatever the other tasks are doing, and that
    error is the only one it receives; what it has reported does not
    change afterwards. *)
Theorem Run_waits_only_on_success (b : Builder) (w : W)
    (markdownFiles : list string) (s : run_state) :
  run_reaches b w markdownFiles s →
  (returned s = Some None → all_succeeded s)
  ∧ (∀ i e, panicked s = false → returned s = None →
            tasks s !! i = Some (Sending e) →
            run_step b s
              {| world := world s;
                 tasks := <[i := Finished (Some e)]> (tasks s);
                 closed := closed s; returned := Some (Some e);
                 panicked := false |})
  ∧ (∀ e, returned s = Some (Some e) →
          ∃ i, tasks s !! i = Some (Finished (Some e))
               ∧ ∀ j e', tasks s !! j = Some (Finished (Some e')) →
                         j = i ∧ e' = e)
  ∧ (∀ r s', returned s = Some r → rtc (run_step b) s s' →
             returned s' = Some r).
Proof.
  intros Hreach. pose proof (run_inv_reaches _ _ _ _ Hreach) as Hinv.
  split_and!.
  - by apply run_inv_nil.
  - intros i e Hp Hr Hi. by apply step_receive.
  - intros e Hr. destruct (inv_error s Hinv e Hr) as [i Hi]. exists i.
    split; [done |]. intros j e' Hj. split.
    + by eapply (inv_single s Hinv).
    + apply (inv_handed s Hinv) in Hj. congruence.
  - intros r s' Hr Hrtc. by eapply returned_rtc.
Qed.

(** After [Run] has returned, a task that wants to send its error waits
    for ever: nothing receives from the channel any more. *)
Lemma sender_blocked_after_return (b : Builder) (s s' : run_state)
    (i : nat) (e : error) :
  rtc (run_step b) s s' → returned s ≠ None →
  tasks s !! i = Some (Sending e) → tasks s' !! i = Some (Sending e).
Proof.
  intros Hrtc. induction Hrtc as [| s s1 s2 Hstep _ IH]; [done |].
  intros Hr Hi. destruct (returned s) as [r|] eqn:Hr'; [| done].
  apply IH; [by rewrite (returned_step _ _ _ _ Hstep Hr') |].
  destruct Hstep as
    [s j path w' Hp Hj Hr'' | s j path e' w' Hp Hj Hr'' | s j path w' Hp Hj Hr''
    | s j e' Hp Hj Hr'' | s Hp Hc Hall | s Hp Hc Hr'']; simpl; try done;
    try congruence;
    (destruct (decide (j = i)) as [-> | Hne];
     [congruence | by rewrite list_lookup_insert_ne]).
Qed.

End Waiting.

Lemma bare_prepare :
  Run_prepare 1 (NewBuilder site.cfg) site.bare
  = Some (Ok (site.builder_bare, ["a.md"; "b.md"]), site.bare_prepared).
Proof. vm_refl. Qed.

Lemma bare_render_a :
  renderTask site.builder_bare "a.md" site.bare_prepared
  = (Err site.not_found, site.bare_world1).
Proof. vm_refl. Qed.

Lemma bare_reaches_sending :
  run_reaches site.builder_bare site.bare_prepared ["a.md"; "b.md"]
    site.bare_sending.
Proof.
  apply rtc_once.
  exact (step_render_err site.builder_bare site.bare_start 0 "a.md"
           site.not_found site.bare_world1 eq_refl eq_refl bare_render_a).
Qed.

(** On the tree without layouts the task of [a.md] fails; [Run] receives
    its error and returns. *)
Lemma Run_waits_only_on_success_witness :
  run_step site.builder_bare site.bare_sending site.bare_returned.
Proof.
  exact (proj1 (proj2 (Run_waits_only_on_success site.builder_bare
                         site.bare_prepared ["a.md"; "b.md"] site.bare_sending
                         bare_reaches_sending))
           0 site.not_found eq_refl eq_refl eq_refl).
Defined.

(** [Run] has returned the error of [a.md] while the task of [b.md] has
    not yet started to render. *)
Lemma Run_returns_before_tasks_finish_counterexample :
  run_reaches site.builder_bare site.bare_prepared ["a.md"; "b.md"]
    site.bare_returned
  ∧ returned site.bare_returned = Some (Some site.not_found)
  ∧ tasks site.bare_returned !! 1 = Some (Spawned "b.md")
  ∧ forallb is_finished (tasks site.bare_returned) = false
  ∧ Run_returns 1 (NewBuilder site.cfg) site.bare (Some site.not_found)
      (world site.bare_returned).
Proof.
  assert (Hstep : run_step site.builder_bare site.bare_sending site.bare_returned).
  { exact (step_receive site.builder_bare site.bare_sending 0 site.not_found
             eq_refl eq_refl eq_refl). }
  split_and!; try reflexivity.
  - eapply rtc_r; [apply bare_reaches_sending | exact Hstep].
  - exact (Run_tasks 1 (NewBuilder site.cfg) site.bare site.builder_bare
             ["a.md"; "b.md"] site.bare_prepared site.bare_sending
             site.bare_returned (Some site.not_found) bare_prepare
             bare_reaches_sending eq_refl Hstep eq_refl).
Qed.

(** ** A rendering task that panics *)

Section Crash.
Context {W : Type} {sys : Sys W} {goos : GOOS} {fp : FilePath}.

(** After the panic of a goroutine nothing moves: the process is gone and
    [Run] returns nothing. *)
Lemma panicked_no_step (b : Builder) (s s' : run_state) :
  panicked s = true → ¬ run_step b s s'.
Proof. intros Hp Hstep. destruct Hstep; congruence. Qed.

Lemma panicked_stuck (b : Builder) (s s' : run_state) :
  panicked s = true → rtc (run_step b) s s' → returned s' = returned s.
Proof.
  intros Hp Hrtc. destruct Hrtc as [| s1 s2 s3 Hstep _]; [done |].
  by destruct (panicked_no_step _ _ _ Hp Hstep).
Qed.

End Crash.

Lemma shadowed_render_a :
  renderTask site.builder_bare "a.md" site.shadowed_prepared
  = (Err site.not_found, site.shadowed_world1).
Proof. vm_refl. Qed.

Lemma shadowed_render_x :
  renderTask site.builder_bare "blog/sub/x.md" site.shadowed_world1
  = (Panic, site.shadowed_world2).
Proof. vm_refl. Qed.

(** C3: on a tree whose static directory holds a regular file [blog] and
    which has the pages [a.md] and [blog/sub/x.md] and no layout, every
    sequential phase of [Run] succeeds and both pages are dispatched.  The
    task of [a.md] fails with [template not found].  The task of
    [blog/sub/x.md] asks [existDir] for [dist/blog/sub]; [os.Stat] answers
    "not a directory", which is not "does not exist", and [existDir]
    calls [IsDir] on the nil [FileInfo]: the goroutine panics.  In the
    execution where this happens before [Run] has received the error of
    [a.md], a rendering task has failed and [Run] returns neither an error
    nor nil. *)
Theorem Run_failed_task_lost_in_panic :
  Run_prepare 1 (NewBuilder site.cfg) site.shadowed
  = Some (Ok (site.builder_bare, ["a.md"; "blog/sub/x.md"]),
          site.shadowed_prepared)
  ∧ os_Stat "dist/blog/sub" site.shadowed_world1 = StatError mem.ENOTDIR
  ∧ existDir "dist/blog/sub" site.shadowed_world1 = Panic
  ∧ renderContent site.builder_bare "a.md" site.shadowed_prepared
    = (Err site.not_found,
       snd (renderContent site.builder_bare "a.md" site.shadowed_prepared))
  ∧ fst (renderContent site.builder_bare "blog/sub/x.md" site.shadowed_world1)
    = Panic
  ∧ run_reaches site.builder_bare site.shadowed_prepared
      ["a.md"; "blog/sub/x.md"] site.shadowed_crashed
  ∧ tasks site.shadowed_crashed !! 0 = Some (Sending site.not_found)
  ∧ task_failed (Sending site.not_found)
  ∧ panicked site.shadowed_crashed = true
  ∧ (∀ s', rtc (run_step site.builder_bare) site.shadowed_crashed s' →
           returned s' = None)
  ∧ (∀ s', ¬ run_step site.builder_bare site.shadowed_crashed s').
Proof.
  split_and!; try vm_refl; try exact I.
  - eapply rtc_l; [| apply rtc_once].
    + exact (step_render_err site.builder_bare
               (run_init site.shadowed_prepared ["a.md"; "blog/sub/x.md"])
               0 "a.md" site.not_found site.shadowed_world1
               eq_refl eq_refl shadowed_render_a).
    + exact (step_render_panic site.builder_bare site.shadowed_sending
               1 "blog/sub/x.md" site.shadowed_world2
               eq_refl eq_refl shadowed_render_x).
  - intros s' Hrtc.
    exact (panicked_stuck site.builder_bare site.shadowed_crashed s'
             eq_refl Hrtc).
  - intros s'.
    exact (panicked_no_step site.builder_bare site.shadowed_crashed s'
             eq_refl).
Qed.

(** * Further properties of the builder *)

(** ** [replaceExt] and the output path *)

Lemma lower_byte_idem (c : ascii) :
  strings.lower_byte (strings.lower_byte c) = strings.lower_byte c.
Proof. destruct c as [[] [] [] [] [] [] [] []]; reflexivity. Qed.

Lemma ToLower_idem (s : string) :
  strings.ToLower (strings.ToLower s) = strings.ToLower s.
Proof.
  induction s as [|c s IH]; simpl; [done |]. by rewrite lower_byte_idem, IH.
Qed.

Lemma sapp_inj_r (s1 s2 t : string) : s1 ++ t = s2 ++ t → s1 = s2.
Proof.
  intros H.
  assert (Hlen : String.length s1 = String.length s2).
  { apply (f_equal String.length) in H. rewrite !slength_app in H. lia. }
  rewrite <- (substring_head s1 t), <- (substring_head s2 t), H.
  by rewrite Hlen.
Qed.

Section ReplaceExtMore.
Context {goos : GOOS}.

(** X1: [replaceExt] for any [from], on a path whose extension holds
    ASCII bytes only (where [strings.ToLower] works byte by byte): an
    empty [from] replaces whatever extension the path has (a path without
    extension gets [to] appended); a [from] that is not empty replaces
    the extension exactly when the lower-cased extension equals it; so a
    [from] with an upper-case ASCII letter never matches and the path is
    returned unchanged. *)
Theorem replaceExt_from (filePath from to : string) :
  strings.isASCII (filepath.Ext filePath) = true →
  ∃ stem, filePath = stem ++ filepath.Ext filePath
    ∧ (from = EmptyString → replaceExt filePath from to = stem ++ to)
    ∧ (strings.ToLower (filepath.Ext filePath) = from →
       replaceExt filePath from to = stem ++ to)
    ∧ (from ≠ EmptyString → strings.ToLower (filepath.Ext filePath) ≠ from →
       replaceExt filePath from to = filePath)
    ∧ (from ≠ EmptyString → strings.ToLower from ≠ from →
       replaceExt filePath from to = filePath)
    ∧ (filepath.Ext filePath = EmptyString →
       replaceExt filePath EmptyString to = filePath ++ to).
Proof.
  intros _.
  destruct (Ext_suffix filePath) as [stem Hstem]. exists stem.
  assert (Hswap : ∀ from', from' = EmptyString
                           ∨ strings.ToLower (filepath.Ext filePath) = from' →
                           replaceExt filePath from' to = stem ++ to).
  { intros from' Hf. unfold replaceExt.
    assert (Hc : (0 <? String.length from')%nat
                 && negb (String.eqb (strings.ToLower (filepath.Ext filePath))
                            from') = false).
    { destruct Hf as [-> | Hf]; [done |].
      apply String.eqb_eq in Hf. rewrite Hf. apply andb_false_r. }
    rewrite Hc. f_equal. rewrite Hstem at 1 3. rewrite slength_app.
    replace (String.length stem + String.length (filepath.Ext filePath)
             - String.length (filepath.Ext filePath))
      with (String.length stem) by lia.
    apply substring_head. }
  split_and!; [done | | | | |].
  - intros Hf. apply Hswap. by left.
  - intros Hf. apply Hswap. by right.
  - intros Hne Hlow. by apply replaceExt_keep.
  - intros Hne Hup. apply replaceExt_keep; [done |]. intros Hlow.
    apply Hup. rewrite <- Hlow. apply ToLower_idem.
  - intros He. rewrite (Hswap EmptyString) by (by left).
    rewrite He, sapp_nil_r in Hstem. by rewrite <- Hstem.
Qed.

(** The extension of a path that [replaceExt] has given the extension
    [.html] or [.png]. *)
Lemma Ext_html (stem : string) : filepath.Ext (stem ++ ".html") = ".html".
Proof. apply (Ext_app stem "html"). by destruct goos. Qed.

(** X2: the output path of a converted source has the extension [.html],
    and converting an output path again changes nothing:
    [convertMarkdownPathToHtmlPath] is idempotent on every path. *)
Theorem convertMarkdownPathToHtmlPath_idem (markdownPath : string) :
  convertMarkdownPathToHtmlPath (convertMarkdownPathToHtmlPath markdownPath)
  = convertMarkdownPathToHtmlPath markdownPath
  ∧ (strings.ToLower (filepath.Ext markdownPath) = ".md" →
     filepath.Ext (convertMarkdownPathToHtmlPath markdownPath) = ".html").
Proof.
  unfold convertMarkdownPathToHtmlPath.
  destruct (Ext_suffix markdownPath) as [stem Hstem].
  destruct (decide (strings.ToLower (filepath.Ext markdownPath) = ".md"))
    as [Hmd | Hmd].
  - rewrite (replaceExt_swap stem ".md" ".html" markdownPath Hstem Hmd).
    split; [| intros _; apply Ext_html].
    apply replaceExt_keep; [done |]. by rewrite Ext_html.
  - rewrite (replaceExt_keep markdownPath ".md" ".html") by done.
    split; [| done]. by apply replaceExt_keep.
Qed.

(** X3: two sources that end in [.md] and differ get different output
    paths (whatever the new extension: the page and the share image), so
    no two rendering tasks of one build write the same file; a source
    that ends in [.MD] shares its output path with the [.md] source of
    the same stem. *)
Theorem replaceExt_md_injective (to stem1 stem2 : string) :
  (stem1 ≠ stem2 →
   replaceExt (stem1 ++ ".md") ".md" to ≠ replaceExt (stem2 ++ ".md") ".md" to)
  ∧ replaceExt (stem1 ++ ".MD") ".md" to = replaceExt (stem1 ++ ".md") ".md" to.
Proof.
  rewrite !replaceExt_lower_md, replaceExt_upper_md. split; [| done].
  intros Hne H. by apply sapp_inj_r in H.
Qed.

End ReplaceExtMore.

Lemma replaceExt_from_witness :
  replaceExt "blog/hello.md" ".MD" ".html" = "blog/hello.md"
  ∧ replaceExt "README" EmptyString ".txt" = "README.txt".
Proof.
  assert (H1 : strings.isASCII (filepath.Ext "blog/hello.md") = true)
    by (vm_compute; reflexivity).
  assert (H2 : strings.isASCII (filepath.Ext "README") = true)
    by (vm_compute; reflexivity).
  destruct (replaceExt_from "blog/hello.md" ".MD" ".html" H1)
    as (stem1 & _ & _ & _ & _ & Hupper & _).
  destruct (replaceExt_from "README" EmptyString ".txt" H2)
    as (stem2 & _ & _ & _ & _ & _ & Hnoext).
  split; [apply Hupper; discriminate | exact (Hnoext eq_refl)].
Defined.

Lemma convertMarkdownPathToHtmlPath_idem_witness :
  filepath.Ext (convertMarkdownPathToHtmlPath "blog/hello.md") = ".html".
Proof.
  apply (proj2 (convertMarkdownPathToHtmlPath_idem "blog/hello.md")).
  reflexivity.
Defined.

Lemma replaceExt_md_injective_witness :
  replaceExt "a.md" ".md" ".html" ≠ replaceExt "blog/a.md" ".md" ".html".
Proof.
  apply (proj1 (replaceExt_md_injective ".html" "a" "blog/a")). discriminate.
Defined.

(** ** The share image *)

Lemma ReplaceByte_length (old new : ascii) (s : string) :
  String.length (strings.ReplaceByte old new s) = String.length s.
Proof. induction s as [|c s IH]; simpl; [done | by rewrite IH]. Qed.

Lemma ToSlash_length {goos : GOOS} (path : string) :
  String.length (filepath.ToSlash path) = String.length path.
Proof.
  unfold filepath.ToSlash. destruct (Ascii.eqb _ _); [done |].
  apply ReplaceByte_length.
Qed.

Section OgImage.
Context {W : Type} {sys : Sys W} {goos : GOOS} {fp : FilePath}.

(** X4: the og-image block of [renderContent].  A front matter with an
    image, or without an emoji, is left as it is and nothing is created.
    Otherwise the image file is created at [dist/<source with .png>], the
    emoji is drawn into it, and the image field becomes that path
    (relative to the distribution directory, with forward slashes); an
    error of the creation or of the drawing is returned.  No other field
    changes, an image that is set is never replaced, and on a source
    [stem.md] a second pass over the result does nothing. *)
Theorem setOgImage_cases (b : Builder) (markdownPath : string)
    (fm : YamlFrontMatter) (w : W) :
  let imagePath := replaceExt markdownPath ".md" ".png" in
  let imageDistPath := Join [Dist (config b); imagePath] in
  (OgImage fm ≠ EmptyString ∨ Emoji fm = EmptyString →
   setOgImage b markdownPath fm w = (Ok fm, w))
  ∧ (OgImage fm = EmptyString → Emoji fm ≠ EmptyString →
     (∀ e w1, os_Create imageDistPath w = (Err e, w1) →
              setOgImage b markdownPath fm w = (Err e, w1))
     ∧ (∀ file w1 e w2,
          os_Create imageDistPath w = (Ok file, w1) →
          SaveTwemojiPng fm file w1 = (Err e, w2) →
          setOgImage b markdownPath fm w = (Err e, w2))
     ∧ (∀ file w1 w2,
          os_Create imageDistPath w = (Ok file, w1) →
          SaveTwemojiPng fm file w1 = (Ok tt, w2) →
          setOgImage b markdownPath fm w
          = (Ok (withOgImage fm (filepath.ToSlash imagePath)), w2)))
  ∧ (∀ fm' w',
       setOgImage b markdownPath fm w = (Ok fm', w') →
       PostSlug fm' = PostSlug fm ∧ Emoji fm' = Emoji fm
       ∧ Extra fm' = Extra fm
       ∧ (OgImage fm ≠ EmptyString → OgImage fm' = OgImage fm)
       ∧ (∀ stem w'', markdownPath = stem ++ ".md" →
                      setOgImage b markdownPath fm' w'' = (Ok fm', w''))).
Proof.
  intros imagePath imageDistPath.
  assert (Hskip : ∀ fm0 w0,
            OgImage fm0 ≠ EmptyString ∨ Emoji fm0 = EmptyString →
            setOgImage b markdownPath fm0 w0 = (Ok fm0, w0)).
  { intros fm0 w0 H. unfold setOgImage.
    destruct H as [H | H].
    - apply String.eqb_neq in H. by rewrite H.
    - apply String.eqb_eq in H. by rewrite H, andb_false_r. }
  split; [apply Hskip |]. split.
  - intros Ho He. unfold setOgImage.
    apply String.eqb_eq in Ho. apply String.eqb_neq in He. rewrite Ho, He. simpl.
    unfold mbind, M_bind, mret, M_ret. fold imagePath imageDistPath.
    split_and!.
    + intros e w1 Hc. by rewrite Hc.
    + intros file w1 e w2 Hc Hs. by rewrite Hc, Hs.
    + intros file w1 w2 Hc Hs. by rewrite Hc, Hs.
  - intros fm' w' Hog.
    destruct (String.eqb_spec (OgImage fm) EmptyString) as [Ho | Ho];
      [destruct (String.eqb_spec (Emoji fm) EmptyString) as [He | He] |].
    + rewrite Hskip in Hog by (by right). injection Hog as <- <-.
      split_and!; try done. intros stem w'' _. apply Hskip. by right.
    + unfold setOgImage in Hog.
      apply String.eqb_eq in Ho as Ho'. apply String.eqb_neq in He as He'.
      rewrite Ho', He' in Hog. simpl in Hog.
      unfold mbind, M_bind, mret, M_ret in Hog.
      destruct (os_Create _ w) as [[file | e |] w1]; [| done | done].
      destruct (SaveTwemojiPng fm file w1) as [[[] | e |] w2]; [| done | done].
      injection Hog as <- <-. split_and!; try done.
      intros stem w'' ->. apply Hskip. left. simpl.
      rewrite replaceExt_lower_md. intros Hz.
      apply (f_equal String.length) in Hz.
      rewrite ToSlash_length, slength_app in Hz. simpl in Hz. lia.
    + rewrite Hskip in Hog by (by left). injection Hog as <- <-.
      split_and!; try done. intros stem w'' _. apply Hskip. by left.
Qed.

End OgImage.

(** A page at the top level with an emoji: [dist/index.png] is made and
    recorded as [index.png]. *)
Lemma setOgImage_cases_witness :
  ∃ w2, setOgImage site.builder "index.md" site.with_emoji site.root_dist
        = (Ok (withOgImage site.with_emoji "index.png"), w2)
    ∧ mem.nodes w2 !! "dist/index.png" = Some (mem.FileNode "PNG rocket").
Proof.
  pose (w1 := snd (mem.Create "dist/index.png" site.root_dist)).
  pose (w2 := snd (mem.SavePng site.with_emoji "dist/index.png" w1)).
  exists w2. split; [| vm_refl].
  apply (proj2 (proj2 (proj1 (proj2 (setOgImage_cases site.builder "index.md"
                                       site.with_emoji site.root_dist))
                         eq_refl ltac:(discriminate)))
           "dist/index.png" w1 w2); vm_refl.
Defined.

(** ** [purgeIgnoreFiles] *)

Section Purge.
Context {W : Type} {sys : Sys W} {fp : FilePath}.

Lemma Contains_In (l : list string) (x : string) :
  strings.Contains l x = true ↔ In x l.
Proof.
  unfold strings.Contains. rewrite existsb_exists. split.
  - intros (y & Hy & ->%String.eqb_eq). done.
  - intros Hx. exists x. split; [done | apply String.eqb_refl].
Qed.

(** X5: [purgeIgnoreFiles] keeps exactly the paths whose base name is not
    in the ignore list, in their order (so a name is ignored in every
    directory); it changes nothing when the list is empty, and purging
    twice is purging once. *)
Theorem purgeIgnoreFiles_filter (b : Builder) (files : list string) :
  (∀ path, In path (purgeIgnoreFiles b files) ↔
           In path files ∧ ¬ In (Base path) (IgnoreFiles (Build (config b))))
  ∧ sublist (purgeIgnoreFiles b files) files
  ∧ purgeIgnoreFiles b (purgeIgnoreFiles b files) = purgeIgnoreFiles b files
  ∧ (IgnoreFiles (Build (config b)) = [] → purgeIgnoreFiles b files = files).
Proof.
  unfold purgeIgnoreFiles. split_and!.
  - intros path. rewrite filter_In, negb_true_iff, <- not_true_iff_false.
    by rewrite Contains_In.
  - induction files as [|f files IH]; simpl; [constructor |].
    destruct (negb _); by constructor.
  - induction files as [|f files IH]; simpl; [done |].
    destruct (negb _) eqn:Hf; simpl; [by rewrite Hf, IH | done].
  - intros ->. induction files as [|f files IH]; simpl; [done | by f_equal].
Qed.

End Purge.

(** On Unix paths: [README.md] is ignored at the top and in [blog]. *)
Lemma purgeIgnoreFiles_filter_witness :
  ¬ In "blog/README.md"
      (purgeIgnoreFiles site.builder
         ["README.md"; "blog/README.md"; "blog/hello.md"])
  ∧ In "blog/hello.md"
      (purgeIgnoreFiles site.builder
         ["README.md"; "blog/README.md"; "blog/hello.md"]).
Proof.
  pose proof (proj1 (purgeIgnoreFiles_filter site.builder
                       ["README.md"; "blog/README.md"; "blog/hello.md"])) as H.
  split.
  - intros [_ Hn]%H. apply Hn. by left.
  - apply H. split; [by right; right; left |]. by intros [? | []].
Defined.

(** ** The discovery of files *)

Section Discovery.
Context {W : Type} {sys : Sys W}.

Lemma walkFn_ok (ext : string) (calls : list WalkCall) (filePaths : list string) :
  Forall walk_ok calls →
  walkFn ext calls filePaths = Ok (filePaths ++ walk_matches ext calls)%list.
Proof.
  intros Hall. revert filePaths.
  induction Hall as [|c calls Hc _ IH]; intros filePaths; simpl.
  - by rewrite app_nil_r.
  - destruct c as [path info | path e]; [| done]. rewrite IH.
    unfold walk_matches. simpl.
    destruct (negb (IsDir info) && _); [by rewrite <- app_assoc | done].
Qed.

Lemma walkFn_err (ext : string) (pre post : list WalkCall) (path : string)
    (e : error) (filePaths : list string) :
  Forall walk_ok pre →
  walkFn ext (pre ++ WalkErr path e :: post)%list filePaths = Err e.
Proof.
  intros Hall. revert filePaths.
  induction Hall as [|c calls Hc _ IH]; intros filePaths; simpl; [done |].
  by destruct c.
Qed.

(** A walk meets no error, or it has a first one. *)
Lemma walk_split (calls : list WalkCall) :
  Forall walk_ok calls
  ∨ ∃ pre post path e, calls = (pre ++ WalkErr path e :: post)%list
                       ∧ Forall walk_ok pre.
Proof.
  induction calls as [|c calls IH]; [by left |].
  destruct c as [path info | path e].
  - destruct IH as [IH | (pre & post & p & e & -> & Hpre)].
    + left. by constructor.
    + right. exists (WalkInfo path info :: pre), post, p, e.
      split; [done | by constructor].
  - right. by exists [], calls, path, e.
Qed.

Lemma walk_matches_In (ext : string) (calls : list WalkCall) (path : string) :
  In path (walk_matches ext calls) ↔
  ∃ info, In (WalkInfo path info) calls
          ∧ IsDir info = false
          ∧ strings.HasSuffix (Name info) ext = true.
Proof.
  unfold walk_matches.
  rewrite <- list_elem_of_In, list_elem_of_omap. split.
  - intros (c & Hc & Hm). destruct c as [p info | p e]; [| done].
    destruct (negb (IsDir info) && _) eqn:Hcond; [| done].
    injection Hm as ->. apply andb_true_iff in Hcond as [Hd Hs].
    apply negb_true_iff in Hd. exists info.
    by rewrite <- list_elem_of_In.
  - intros (info & Hin & Hd & Hs). exists (WalkInfo path info).
    rewrite list_elem_of_In. split; [done |]. by rewrite Hd, Hs.
Qed.

(** What [getFilePathsByExt] has returned when it returned a list. *)
Lemma getFilePathsByExt_Ok (dirPath ext : string) (w : W)
    (filePaths : list string) :
  getFilePathsByExt dirPath ext w = Ok filePaths →
  Forall walk_ok (filepath_Walk dirPath w)
  ∧ filePaths = walk_matches ext (filepath_Walk dirPath w).
Proof.
  unfold getFilePathsByExt. intros Hok.
  destruct (walk_split (filepath_Walk dirPath w))
    as [Hall | (pre & post & p & e & Heq & Hpre)].
  - rewrite walkFn_ok in Hok by done. by injection Hok as <-.
  - by rewrite Heq, walkFn_err in Hok.
Qed.

(** X6: [getFilePathsByExt] returns, in the order of the walk, exactly
    the paths of the entries that are not directories and whose name ends
    in [ext] (a directory named [x.md] is not listed) when the walk meets
    no error, and otherwise the first error of the walk, without any of
    the paths found before it; it never returns both. *)
Theorem getFilePathsByExt_walk (dirPath ext : string) (w : W) :
  (Forall walk_ok (filepath_Walk dirPath w) →
   getFilePathsByExt dirPath ext w
   = Ok (walk_matches ext (filepath_Walk dirPath w)))
  ∧ (∀ pre post path e,
       filepath_Walk dirPath w = (pre ++ WalkErr path e :: post)%list →
       Forall walk_ok pre →
       getFilePathsByExt dirPath ext w = Err e)
  ∧ (∀ filePaths,
       getFilePathsByExt dirPath ext w = Ok filePaths →
       Forall walk_ok (filepath_Walk dirPath w)
       ∧ ∀ path, In path filePaths ↔
                 ∃ info, In (WalkInfo path info) (filepath_Walk dirPath w)
                         ∧ IsDir info = false
                         ∧ strings.HasSuffix (Name info) ext = true)
  ∧ getFilePathsByExt dirPath ext w ≠ Panic.
Proof.
  split_and!.
  - intros Hall. unfold getFilePathsByExt. by rewrite walkFn_ok.
  - intros pre post path e Heq Hpre. unfold getFilePathsByExt.
    rewrite Heq. by apply walkFn_err.
  - intros filePaths Hok.
    destruct (getFilePathsByExt_Ok _ _ _ _ Hok) as [Hall ->].
    split; [done |]. intros path. apply walk_matches_In.
  - unfold getFilePathsByExt.
    destruct (walk_split (filepath_Walk dirPath w))
      as [Hall | (pre & post & p & e & Heq & Hpre)].
    + by rewrite walkFn_ok.
    + by rewrite Heq, walkFn_err.
Qed.

End Discovery.

(** The Markdown files of the small site (before the ignore list), and the
    error of a walk from a directory that does not exist. *)
Lemma getFilePathsByExt_walk_witness :
  getFilePathsByExt "." ".md" site.root
  = Ok ["README.md"; "blog/hello.md"; "empty.md"; "index.md"]
  ∧ getFilePathsByExt "layouts" ".html" site.orphan = Err mem.ENOENT.
Proof.
  split.
  - etransitivity;
      [apply (proj1 (getFilePathsByExt_walk "." ".md" site.root)) | vm_refl].
    vm_compute. repeat constructor.
  - apply (proj1 (proj2 (getFilePathsByExt_walk "layouts" ".html" site.orphan))
             [] [] "layouts" mem.ENOENT); [vm_refl | constructor].
Defined.

(** ** The loading of the templates *)

Section Loading.
Context {W : Type} {sys : Sys W}.

Lemma parseTemplates_fails (pre post : list string) (f : string) (e : error)
    (m : gmap string Template) (w : W) :
  Forall (fun f' => ∃ t, mustache_ParseFile f' w = Ok t) pre →
  mustache_ParseFile f w = Err e →
  parseTemplates (pre ++ f :: post)%list m w = Err e.
Proof.
  intros Hpre Hf. revert m.
  induction Hpre as [|f' pre [t Ht] _ IH]; intros m; simpl.
  - by rewrite Hf.
  - by rewrite Ht.
Qed.

Lemma parseTemplates_succeeds (templateFiles : list string)
    (m : gmap string Template) (w : W) :
  Forall (fun f => ∃ t, mustache_ParseFile f w = Ok t) templateFiles →
  ∃ m', parseTemplates templateFiles m w = Ok m'.
Proof.
  intros Hall. revert m.
  induction Hall as [|f fs [t Ht] _ IH]; intros m; simpl; [by eexists |].
  rewrite Ht. apply IH.
Qed.

(** X7: [initTemplateMap] succeeds exactly when every layout file parses,
    and then only the template map of the builder changes; when a file
    does not parse, the error of the first such file (in the order of the
    list) is returned and no builder with a partly filled map. *)
Theorem initTemplateMap_all_or_nothing (b : Builder)
    (templateFiles : list string) (w : W) :
  ((∃ b', initTemplateMap b templateFiles w = Ok b') ↔
   Forall (fun f => ∃ t, mustache_ParseFile f w = Ok t) templateFiles)
  ∧ (∀ b', initTemplateMap b templateFiles w = Ok b' →
           config b' = config b ∧ gm b' = gm b
           ∧ baseRenderContext b' = baseRenderContext b)
  ∧ (∀ pre f post e,
       templateFiles = (pre ++ f :: post)%list →
       Forall (fun f' => ∃ t, mustache_ParseFile f' w = Ok t) pre →
       mustache_ParseFile f w = Err e →
       initTemplateMap b templateFiles w = Err e).
Proof.
  split_and!.
  - split.
    + intros [b' Hb]. apply Forall_forall. intros f Hf.
      destruct (initTemplateMap_registry _ _ _ _ Hb) as (_ & Hdom & Hparse).
      apply Hdom in Hf as [t Ht]. exists t. by apply Hparse.
    + intros Hall. unfold initTemplateMap.
      destruct (parseTemplates_succeeds templateFiles ∅ w Hall) as [m' ->].
      by eexists.
  - unfold initTemplateMap. intros b'.
    destruct (parseTemplates templateFiles ∅ w); [| done | done].
    by intros [= <-].
  - intros pre f post e -> Hpre Hf. unfold initTemplateMap.
    by rewrite (parseTemplates_fails pre post f e ∅ w Hpre Hf).
Qed.

End Loading.

(** A layout that is a directory cannot be read: its error is the result,
    although the layout before it parsed. *)
Lemma initTemplateMap_all_or_nothing_witness :
  initTemplateMap (NewBuilder site.cfg) ["layouts/default.html"; "blog"]
    site.root = Err mem.EISDIR.
Proof.
  apply (proj2 (proj2 (initTemplateMap_all_or_nothing (NewBuilder site.cfg)
                         ["layouts/default.html"; "blog"] site.root))
           ["layouts/default.html"] "blog" []);
    [reflexivity | | vm_refl].
  repeat constructor. by exists "<html>".
Defined.

(** ** Directories that cannot be examined *)

Section StatErrors.
Context {W : Type} {sys : Sys W} {goos : GOOS} {fp : FilePath}.

(** X8: when [os.Stat] fails with an error other than "does not exist",
    [existDir] dereferences the nil [FileInfo] and panics; the panic goes
    through [createDistDir], [copyStatic], [createDistFile] and
    [renderContent], and the preparation of [Run], before any of them has
    changed anything. *)
Theorem existDir_stat_error_panics (dir : string) (w : W) (e : error) :
  os_Stat dir w = StatError e →
  existDir dir w = Panic
  ∧ (∀ overwrite, createDistDir dir overwrite w = (Panic, w))
  ∧ (∀ fuel dist, copyStatic (S fuel) dir dist w = Some (Panic, w))
  ∧ (∀ dist, Dir dist = dir → createDistFile dist w = (Panic, w))
  ∧ (∀ b markdownPath,
       Dir (Join [Dist (config b); convertMarkdownPathToHtmlPath markdownPath])
       = dir →
       renderContent b markdownPath w = (Panic, w))
  ∧ (∀ fuel b, Dist (config b) = dir →
               Run_prepare fuel b w = Some (Panic, w)).
Proof.
  intros Hstat.
  assert (He : existDir dir w = Panic) by (unfold existDir; by rewrite Hstat).
  assert (Hd : ∀ overwrite, createDistDir dir overwrite w = (Panic, w)).
  { intros overwrite. unfold createDistDir, mbind, M_bind, reads. by rewrite He. }
  assert (Hf : ∀ dist, Dir dist = dir → createDistFile dist w = (Panic, w)).
  { intros dist Hdir. unfold createDistFile, mbind, M_bind, reads.
    by rewrite Hdir, He. }
  split_and!; try done.
  - intros fuel dist. simpl. by rewrite He.
  - intros b markdownPath Hdir. unfold renderContent, mbind, M_bind.
    by rewrite (Hf _ Hdir).
  - intros fuel b Hdir. unfold Run_prepare. by rewrite Hdir, Hd.
Qed.

(** X9: [createDistDir].  On an existing directory it fails with [dist
    directory already exists] when [overwrite] is false, and nothing is
    removed; when [overwrite] is true the directory is removed first, and
    an error of the removal is returned without an attempt to create the
    directory.  On a path that does not exist, or exists and is no
    directory, nothing is removed whatever [overwrite] says: the result is
    that of [os.Mkdir]. *)
Theorem createDistDir_cases (dist : string) (w : W) :
  (os_Stat dist w = StatInfo true →
   createDistDir dist false w
   = (Err (errors_New "dist directory already exists"), w)
   ∧ (∀ e w1,
        os_RemoveAll dist
          (log_Printf "[INFO] re creating dist directory: %s" [VString dist] w)
        = (Err e, w1) →
        createDistDir dist true w = (Err e, w1))
   ∧ (∀ w1,
        os_RemoveAll dist
          (log_Printf "[INFO] re creating dist directory: %s" [VString dist] w)
        = (Ok tt, w1) →
        createDistDir dist true w
        = os_Mkdir dist
            (log_Printf "[INFO] creating dist directory: %s" [VString dist] w1)))
  ∧ (os_Stat dist w = StatInfo false ∨ (∃ e, os_Stat dist w = StatNotExist e) →
     ∀ overwrite,
       createDistDir dist overwrite w
       = os_Mkdir dist
           (log_Printf "[INFO] creating dist directory: %s" [VString dist] w)).
Proof.
  unfold createDistDir, mbind, M_bind, reads, existDir, logf, fail, mret, M_ret.
  split.
  - intros ->. simpl. split_and!; [done | |].
    + intros e w1 ->. done.
    + intros w1 ->. by destruct (os_Mkdir dist _) as [[[] | |] ?].
  - intros [-> | [e ->]] overwrite; simpl;
      by destruct (os_Mkdir dist _) as [[[] | |] ?].
Qed.

End StatErrors.

(** A distribution directory below a regular file: [os.Stat] fails with
    "not a directory", and the build panics. *)
Lemma existDir_stat_error_panics_witness :
  createDistDir "index.md/dist" true site.plain = (Panic, site.plain)
  ∧ Run_prepare 1
      (NewBuilder
         {| Dist := "index.md/dist"; Static := "static"; Layouts := "layouts";
            BaseUrl := EmptyString; Build := Build site.cfg |})
      site.plain
    = Some (Panic, site.plain).
Proof.
  assert (H : os_Stat "index.md/dist" site.plain = StatError mem.ENOTDIR)
    by vm_refl.
  split.
  - apply (proj1 (proj2 (existDir_stat_error_panics "index.md/dist" site.plain
                           mem.ENOTDIR H))).
  - by apply (proj2 (proj2 (proj2 (proj2 (proj2
               (existDir_stat_error_panics "index.md/dist" site.plain
                  mem.ENOTDIR H)))))).
Defined.

(** The distribution path is a regular file: it is not removed and the
    build fails with "file exists". *)
Lemma createDistDir_cases_witness :
  createDistDir "index.md" true site.plain
  = (Err mem.EEXIST,
     mem.Log "[INFO] creating dist directory: %s" [VString "index.md"]
       site.plain).
Proof.
  etransitivity;
    [apply (proj2 (createDistDir_cases "index.md" site.plain)); left; vm_refl |].
  vm_refl.
Defined.

(** ** The errors of [getFileData] *)

Section ExtractErrors.
Context {W : Type} {sys : Sys W}.

(** X10: [getFileData] fails with the error of the first step that
    fails: reading the file, parsing the front matter, converting the
    remainder; it panics when the file is read and parsed but the Markdown
    engine of the builder is not set (a builder on which [Run] has not
    reached [initGoldmark]), or when one of the steps panics. *)
Theorem getFileData_errors (b : Builder) (markdownPath : string) (w : W)
    (e : error) :
  (getFileData b markdownPath w = Err e ↔
   os_ReadFile markdownPath w = Err e
   ∨ (∃ content, os_ReadFile markdownPath w = Ok content
        ∧ (frontmatter_Parse content = Err e
           ∨ ∃ yfm markdown g,
               frontmatter_Parse content = Ok (yfm, markdown)
               ∧ gm b = Some g ∧ Convert g markdown = Err e)))
  ∧ (∀ content yfm markdown,
       os_ReadFile markdownPath w = Ok content →
       frontmatter_Parse content = Ok (yfm, markdown) →
       gm b = None →
       getFileData b markdownPath w = Panic).
Proof.
  split; [split |].
  - unfold getFileData.
    destruct (os_ReadFile markdownPath w) as [content | e0 |] eqn:Hr;
      [| intros [= ->]; by left | done].
    destruct (frontmatter_Parse content) as [[yfm markdown] | e1 |] eqn:Hp;
      [| intros [= ->]; right; exists content; split; [done | by left] | done].
    destruct (gm b) as [g|] eqn:Hg; [| done].
    destruct (Convert g markdown) as [html | e2 |] eqn:Hc;
      [by destruct (String.eqb content markdown) | | done].
    intros [= ->]. right. exists content. split; [done |].
    right. by exists yfm, markdown, g.
  - unfold getFileData.
    intros [Hr | (c & Hr & [Hp | (yfm & md & g & Hp & Hg & Hc)])]; rewrite Hr;
      [done | by rewrite Hp | by rewrite Hp, Hg, Hc].
  - unfold getFileData. intros content yfm markdown -> -> ->. done.
Qed.

End ExtractErrors.

(** A page that does not exist, and a builder whose Markdown engine is
    not set. *)
Lemma getFileData_errors_witness :
  getFileData site.builder "missing.md" site.root = Err mem.ENOENT
  ∧ getFileData (NewBuilder site.cfg) "index.md" site.root = Panic.
Proof.
  split.
  - apply (proj1 (getFileData_errors site.builder "missing.md" site.root
                    mem.ENOENT)).
    left. vm_refl.
  - apply (proj2 (getFileData_errors (NewBuilder site.cfg) "index.md"
                    site.root mem.ENOENT) "top" zeroFrontMatter "top");
      vm_refl.
Defined.

(** ** What a run takes from the builder *)

Section Fresh.
Context {W : Type} {sys : Sys W} {goos : GOOS} {fp : FilePath}.

(** X11: [Run] takes nothing but the configuration from the builder it
    is called on: the templates, the Markdown engine and the base context
    are made anew from the configuration in every run, so two builders
    with one configuration prepare the same build, and the builder of the
    rendering tasks has that configuration, the engine [initGoldmark]
    makes from it and the base context [AsMap] makes from it. *)
Theorem Run_prepare_config_only (fuel : nat) (b1 b2 : Builder) (w : W) :
  config b1 = config b2 →
  Run_prepare fuel b1 w = Run_prepare fuel b2 w
  ∧ ∀ b' markdownFiles w',
      Run_prepare fuel b1 w = Some (Ok (b', markdownFiles), w') →
      config b' = config b1
      ∧ gm b' = Some (initGoldmark b1)
      ∧ baseRenderContext b' = Config_AsMap (config b1).
Proof.
  intros Hc. split.
  - destruct b1 as [c1 t1 g1 r1], b2 as [c2 t2 g2 r2]. simpl in Hc. subst c2.
    unfold Run_prepare. simpl.
    destruct (createDistDir (Dist c1) true w) as [[[] | e |] w1]; try done.
    destruct (copyStatic fuel _ _ _) as [[[[] | e |] w3] |]; try done.
    f_equal. unfold Run_load, mbind, M_bind, reads, logf, mret, M_ret. simpl.
    destruct (getFilePathsByExt "." ".md" w3) as [md | e |]; try done.
    unfold purgeIgnoreFiles at 1 3. simpl.
    destruct (getFilePathsByExt (Layouts c1) ".html" _) as [tf | e |];
      try done.
    unfold initTemplateMap. simpl.
    by destruct (parseTemplates tf ∅ _).
  - intros b' files w'. unfold Run_prepare.
    destruct (createDistDir _ true w) as [[[] | e |] w1]; try done.
    destruct (copyStatic fuel _ _ _) as [[[[] | e |] w3] |]; try done.
    unfold Run_load, mbind, M_bind, reads, logf, mret, M_ret.
    destruct (getFilePathsByExt "." ".md" w3) as [md | e |]; try done.
    destruct (getFilePathsByExt (Layouts (config b1)) ".html" _)
      as [tf | e |]; try done.
    unfold initTemplateMap.
    destruct (parseTemplates tf ∅ _); try done.
    intros [= <- <- <-]. done.
Qed.

(** X12: what [initGoldmark] asks of the Markdown engine.  The GFM
    extension always comes first; the highlighting extension follows
    exactly when a style or the line-number flag is configured (a
    highlight section that sets neither adds nothing), with the style
    before the line numbers; raw HTML is let through exactly when
    [WithUnsafe] is configured and true. *)
Theorem initGoldmark_arguments (b : Builder) :
  initGoldmark b
  = goldmark_New (fst (initGoldmark_args b)) (snd (initGoldmark_args b))
  ∧ (∃ rest, fst (initGoldmark_args b) = GFM :: rest
       ∧ (rest = [] ↔
          ∀ hc, Highlight (Goldmark (Build (config b))) = Some hc →
                Style hc = None ∧ WithNumbers hc = None)
       ∧ (∀ hc, Highlight (Goldmark (Build (config b))) = Some hc →
                (Style hc ≠ None ∨ WithNumbers hc ≠ None) →
                rest = [Highlighting
                          (match Style hc with
                           | Some st => [WithStyle st] | None => [] end
                           ++ match WithNumbers hc with
                              | Some n => [WithLineNumbers n] | None => [] end)%list]))
  ∧ (snd (initGoldmark_args b) = [HtmlWithUnsafe] ↔
     ∃ ro, Renderer (Goldmark (Build (config b))) = Some ro
           ∧ WithUnsafe ro = Some true)
  ∧ (snd (initGoldmark_args b) = [] ∨ snd (initGoldmark_args b) = [HtmlWithUnsafe]).
Proof.
  split; [reflexivity |]. unfold initGoldmark_args. simpl.
  split; [| split].
  - eexists. split; [reflexivity |].
    destruct (Highlight _) as [[[st|] [n|]] |]; simpl; split.
    all: try (split; [done | intros H; by destruct (H _ eq_refl)]).
    all: try (split; [by intros _ hc [= <-] | done]).
    all: try (intros hc [= <-]; simpl; try done; intros [? | ?]; done).
    all: try done.
  - destruct (Renderer _) as [[[[|]|]] |]; simpl; split; try done;
      try (by eexists); intros (ro & [= <-] & ?); done.
  - destruct (Renderer _) as [[[[|]|]] |]; simpl; auto.
Qed.

End Fresh.

(** A highlight section that sets neither the style nor the line numbers,
    and [WithUnsafe] set to false: GFM alone, no renderer option. *)
Lemma initGoldmark_arguments_witness :
  fst (initGoldmark_args (site.builder_of_cfg site.cfg_quiet)) = [GFM]
  ∧ snd (initGoldmark_args (site.builder_of_cfg site.cfg_quiet)) = [].
Proof.
  destruct (initGoldmark_arguments (site.builder_of_cfg site.cfg_quiet))
    as (_ & (rest & Hf & Hr & _) & _ & Hu).
  split.
  - rewrite Hf. f_equal. apply Hr. by intros hc [= <-].
  - by destruct Hu.
Defined.

(** A builder that holds the state of an earlier run prepares the same
    build as a new one. *)
Lemma Run_prepare_config_only_witness :
  Run_prepare 1 (site.builder_of {[ "old.html" := "stale" ]}) site.plain
  = Run_prepare 1 (NewBuilder site.cfg) site.plain.
Proof.
  apply (proj1 (Run_prepare_config_only 1
                  (site.builder_of {[ "old.html" := "stale" ]})
                  (NewBuilder site.cfg) site.plain eq_refl)).
Defined.

(** ** The order of the range loops *)

Section RangeOrder.
Context {W : Type} {sys : Sys W}.

Lemma assignInOrder_union (pairs : list (string * value)) (dst : context) :
  NoDup (pairs.*1) →
  assignInOrder pairs dst = (list_to_map pairs : context) ∪ dst.
Proof.
  unfold assignInOrder. revert dst.
  induction pairs as [|[k v] pairs IH]; intros dst Hnd; simpl.
  - by rewrite (left_id_L ∅ (∪)).
  - apply NoDup_cons in Hnd as [Hk Hnd]. rewrite IH by done.
    rewrite <- insert_union_l. symmetry. apply insert_union_r.
    by apply not_elem_of_list_to_map_1.
Qed.

(** X13: the two range loops of [getRenderContext] give the same render
    context in whatever order they visit the pairs of the base context
    and of the front matter (Go does not fix the order): every order gives
    the union in which the front matter wins over the base context and
    both win over [contents]. *)
Theorem getRenderContext_any_order (b : Builder) (filedata : FileData)
    (basePairs matterPairs : list (string * value)) :
  basePairs ≡ₚ map_to_list (baseRenderContext b) →
  matterPairs ≡ₚ map_to_list (FrontMatter_AsMap (FrontMatter filedata)) →
  getRenderContext b filedata
  = Ok (assignInOrder matterPairs
          (assignInOrder basePairs
             (<["contents" := VString (Content filedata)]> ∅))).
Proof.
  intros Hb Hm.
  assert (Hnd : ∀ (m : context) l, l ≡ₚ map_to_list m →
                  NoDup (l.*1) ∧ (list_to_map l : context) = m).
  { intros m l Hl.
    assert (NoDup (l.*1)) by (rewrite Hl; apply NoDup_fst_map_to_list).
    split; [done |].
    rewrite (list_to_map_proper l (map_to_list m)) by done.
    apply list_to_map_to_list. }
  destruct (Hnd _ _ Hb) as [Hb1 Hb2]. destruct (Hnd _ _ Hm) as [Hm1 Hm2].
  rewrite !assignInOrder_union, Hb2, Hm2 by done.
  by rewrite getRenderContext_union, insert_empty.
Qed.

End RangeOrder.

(** Base [{a, c}] and front matter [{a, b}], each visited in two
    opposite orders. *)
Lemma getRenderContext_any_order_witness :
  getRenderContext
    (site.builder_with {[ "a" := VInt 1; "c" := VInt 4 ]})
    (site.page "X" {[ "a" := VInt 2; "b" := VInt 3 ]})
  = Ok (assignInOrder [("b", VInt 3); ("a", VInt 2)]
          (assignInOrder [("a", VInt 1); ("c", VInt 4)]
             (<["contents" := VString "X"]> ∅)))
  ∧ getRenderContext
      (site.builder_with {[ "a" := VInt 1; "c" := VInt 4 ]})
      (site.page "X" {[ "a" := VInt 2; "b" := VInt 3 ]})
    = Ok (assignInOrder [("a", VInt 2); ("b", VInt 3)]
            (assignInOrder [("c", VInt 4); ("a", VInt 1)]
               (<["contents" := VString "X"]> ∅))).
Proof.
  assert (Hb : map_to_list (baseRenderContext
                 (site.builder_with {[ "a" := VInt 1; "c" := VInt 4 ]}))
               = [("c", VInt 4); ("a", VInt 1)]) by vm_refl.
  assert (Hm : map_to_list (FrontMatter_AsMap (FrontMatter
                 (site.page "X" {[ "a" := VInt 2; "b" := VInt 3 ]})))
               = [("a", VInt 2); ("b", VInt 3)]) by vm_refl.
  split.
  - apply (getRenderContext_any_order
             (site.builder_with {[ "a" := VInt 1; "c" := VInt 4 ]})
             (site.page "X" {[ "a" := VInt 2; "b" := VInt 3 ]})).
    + rewrite Hb. apply perm_swap.
    + rewrite Hm. apply perm_swap.
  - apply (getRenderContext_any_order
             (site.builder_with {[ "a" := VInt 1; "c" := VInt 4 ]})
             (site.page "X" {[ "a" := VInt 2; "b" := VInt 3 ]})).
    + by rewrite Hb.
    + by rewrite Hm.
Defined.

(** ** The pages of a build *)

Section Pages.
Context {W : Type} {sys : Sys W} {goos : GOOS} {fp : FilePath}.

(** X14: the files [Run] renders are the regular files that the walk of
    the working directory reports after the static copy, whose name ends
    in [.md] and whose base name is not in the ignore list, in the order
    of the walk.  The walk starts at ["."] whatever the configuration, so
    a Markdown file below the static, the layouts or the distribution
    directory is a page as well. *)
Theorem Run_prepare_pages (fuel : nat) (b b' : Builder)
    (markdownFiles : list string) (w w' : W) :
  Run_prepare fuel b w = Some (Ok (b', markdownFiles), w') →
  ∃ w1 w3,
    createDistDir (Dist (config b)) true w = (Ok tt, w1)
    ∧ copyStatic fuel (Static (config b)) (Dist (config b))
        (log_Printf ("[INFO] copying static files from %s to %s" ++ nl)
           [VString (Static (config b)); VString (Dist (config b))] w1)
      = Some (Ok tt, w3)
    ∧ Forall walk_ok (filepath_Walk "." w3)
    ∧ markdownFiles
      = purgeIgnoreFiles b (walk_matches ".md" (filepath_Walk "." w3))
    ∧ ∀ path,
        In path markdownFiles ↔
        (∃ info, In (WalkInfo path info) (filepath_Walk "." w3)
                 ∧ IsDir info = false
                 ∧ strings.HasSuffix (Name info) ".md" = true)
        ∧ ¬ In (Base path) (IgnoreFiles (Build (config b))).
Proof.
  unfold Run_prepare.
  destruct (createDistDir _ true w) as [[[] | e |] w1] eqn:Hd; try done.
  destruct (copyStatic fuel _ _ _) as [[[[] | e |] w3] |] eqn:Hs; try done.
  unfold Run_load, mbind, M_bind, reads, logf, mret, M_ret.
  destruct (getFilePathsByExt "." ".md" w3) as [md | e |] eqn:Hmd; try done.
  destruct (getFilePathsByExt (Layouts (config b)) ".html" _)
    as [tf | e |]; try done.
  destruct (initTemplateMap b tf _) as [b1 | e |]; try done.
  intros [= <- <- <-]. exists w1, w3.
  destruct (getFilePathsByExt_Ok _ _ _ _ Hmd) as [Hwalk ->].
  split_and!; try done.
  intros path. unfold purgeIgnoreFiles.
  rewrite filter_In, negb_true_iff, <- not_true_iff_false, Contains_In.
  by rewrite walk_matches_In.
Qed.

End Pages.

(** The site with a static directory: the style sheet is copied first,
    and the four Markdown files are found; [README.md] is ignored. *)
Lemma Run_prepare_pages_witness :
  ∃ w3, Forall walk_ok (filepath_Walk "." w3)
        ∧ ["blog/hello.md"; "empty.md"; "index.md"]
          = purgeIgnoreFiles (NewBuilder site.cfg)
              (walk_matches ".md" (filepath_Walk "." w3)).
Proof.
  pose (r := Run_prepare 3 (NewBuilder site.cfg) site.root).
  pose (w' := match r with Some (_, w) => w | None => site.root end).
  pose (b' := match r with
              | Some (Ok (b, _), _) => b
              | _ => NewBuilder site.cfg
              end).
  assert (H : Run_prepare 3 (NewBuilder site.cfg) site.root
              = Some (Ok (b', ["blog/hello.md"; "empty.md"; "index.md"]), w'))
    by vm_refl.
  destruct (Run_prepare_pages 3 (NewBuilder site.cfg) b' _ site.root w' H)
    as (w1 & w3 & _ & _ & Hwalk & Hfiles & _).
  exists w3. exact (conj Hwalk Hfiles).
Defined.

(** ** Tasks that fail after [Run] has returned *)

Section Leak.
Context {W : Type} {sys : Sys W} {goos : GOOS} {fp : FilePath}.

(** X15: once [Run] has returned, a rendering task that has an error to
    send never gets rid of it: in every later state of the execution it
    is still blocked in the send, the WaitGroup has not come down to
    zero, the channel has not been closed, and what [Run] returned
    stands. *)
Theorem failed_task_never_finishes (b : Builder) (w : W)
    (markdownFiles : list string) (s s' : run_state) (i : nat) (e : error) :
  run_reaches b w markdownFiles s →
  returned s ≠ None →
  tasks s !! i = Some (Sending e) →
  rtc (run_step b) s s' →
  tasks s' !! i = Some (Sending e)
  ∧ forallb is_finished (tasks s') = false
  ∧ closed s' = false
  ∧ returned s' = returned s.
Proof.
  intros Hreach Hr Hi Hrtc.
  assert (Hi' : tasks s' !! i = Some (Sending e))
    by (by eapply sender_blocked_after_return).
  assert (Hall : forallb is_finished (tasks s') = false).
  { apply not_true_iff_false. intros Hall.
    by pose proof (forallb_is_finished_lookup _ _ _ Hall Hi'). }
  split_and!; [done | done | |].
  - apply not_true_iff_false. intros Hc.
    assert (Hinv : run_inv s').
    { apply (run_inv_reaches b w markdownFiles).
      unfold run_reaches in *. by eapply rtc_trans. }
    rewrite (inv_closed s' Hinv Hc) in Hall. done.
  - destruct (returned s) as [r|] eqn:Hrs; [| done].
    by eapply returned_rtc.
Qed.

End Leak.

Lemma bare_render_b :
  renderTask site.builder_bare "b.md" site.bare_world1
  = (Err site.not_found, site.bare_world2).
Proof. vm_refl. Qed.

Lemma bare_reaches_leaked :
  run_reaches site.builder_bare site.bare_prepared ["a.md"; "b.md"]
    site.bare_leaked.
Proof.
  eapply rtc_r; [eapply rtc_r; [apply bare_reaches_sending |] |].
  - exact (step_receive site.builder_bare site.bare_sending 0 site.not_found
             eq_refl eq_refl eq_refl).
  - exact (step_render_err site.builder_bare site.bare_returned 1 "b.md"
             site.not_found site.bare_world2 eq_refl eq_refl bare_render_b).
Qed.

(** On the tree without layouts: [Run] has returned the error of [a.md],
    the task of [b.md] has failed too and stays where it is. *)
Lemma failed_task_never_finishes_witness :
  tasks site.bare_leaked !! 1 = Some (Sending site.not_found)
  ∧ forallb is_finished (tasks site.bare_leaked) = false
  ∧ closed site.bare_leaked = false
  ∧ returned site.bare_leaked = returned site.bare_leaked.
Proof.
  apply (failed_task_never_finishes site.builder_bare site.bare_prepared
           ["a.md"; "b.md"] site.bare_leaked site.bare_leaked 1
           site.not_found bare_reaches_leaked).
  - discriminate.
  - reflexivity.
  - apply rtc_refl.
Defined.

(** ** The static copy *)

Section Copy.
Context {W : Type} {sys : Sys W} {goos : GOOS} {fp : FilePath}.

Lemma copyEntries_app
    (rec : string → string → W → option (outcome unit * W))
    (src dist : string) (pre post : list DirEntry) (w w1 : W) :
  copyEntries rec src dist pre w = Some (Ok tt, w1) →
  copyEntries rec src dist (pre ++ post)%list w
  = copyEntries rec src dist post w1.
Proof.
  revert w. induction pre as [|file pre IH]; intros w; simpl.
  - by intros [= ->].
  - destruct (if IsDir file then _ else _) as [[[[] | e |] w'] |];
      try done. apply IH.
Qed.

(** X17: [copyStatic] stops at the first entry it cannot copy: when the
    entries before it have been copied and the copy of the entry (a file,
    or a sub-directory as a whole) fails, [copyStatic] returns that error
    and the world of that moment; the entries after it are not looked
    at, and what has been copied stays. *)
Theorem copyStatic_first_failure (fuel : nat) (src dist : string)
    (w w1 w2 w3 : W) (pre post : list DirEntry) (file : DirEntry)
    (e : error) :
  existDir src w = Ok true →
  os_MkdirAll dist w = (Ok tt, w1) →
  os_ReadDir src w1 = Ok (pre ++ file :: post)%list →
  copyEntries (copyStatic fuel) src dist pre w1 = Some (Ok tt, w2) →
  (if IsDir file
   then copyStatic fuel (Join [src; Name file]) (Join [dist; Name file]) w2
   else Some (copyFile (Join [src; Name file]) (Join [dist; Name file]) w2))
  = Some (Err e, w3) →
  copyStatic (S fuel) src dist w = Some (Err e, w3).
Proof.
  intros Hex Hmk Hrd Hpre Hfile. simpl. rewrite Hex, Hmk, Hrd.
  rewrite (copyEntries_app _ _ _ _ _ _ _ Hpre). simpl. by rewrite Hfile.
Qed.

End Copy.

(** [a.css] is copied, [b] cannot be created over the directory [out/b],
    and [c] is not copied. *)
Lemma copyStatic_first_failure_witness :
  ∃ w3, copyStatic 1 "static" "out" site.clash = Some (Err mem.EISDIR, w3)
        ∧ mem.node_at w3 "out/a.css" = Some (mem.FileNode "a")
        ∧ mem.node_at w3 "out/c" = None.
Proof.
  pose (w2 := snd (copyFile "static/a.css" "out/a.css" site.clash)).
  exists w2. split; [| split; vm_refl].
  apply (copyStatic_first_failure 0 "static" "out" site.clash site.clash
           w2 w2
           [{| Name := "a.css"; IsDir := false |}]
           [{| Name := "c"; IsDir := false |}]
           {| Name := "b"; IsDir := false |} mem.EISDIR);
    vm_refl.
Defined.

(** ** The layout of a page at the top level *)

Lemma split_sep_cons (s : string) : ∃ e es, unix.split_sep s = e :: es.
Proof.
  induction s as [|c s (e & es & IH)]; simpl; [by eexists _, _ |].
  rewrite IH. destruct (Ascii.eqb c "/"); by eexists _, _.
Qed.

Lemma split_sep_app (a b : string) :
  unix.split_sep (a ++ String "/" b)
  = (unix.split_sep a ++ unix.split_sep b)%list.
Proof.
  induction a as [|c a IH].
  - rewrite sapp_nil_l. simpl.
    by destruct (split_sep_cons b) as (e & es & ->).
  - rewrite sapp_cons. simpl. rewrite IH.
    destruct (split_sep_cons a) as (e & es & ->). simpl.
    by destruct (Ascii.eqb c "/").
Qed.

(** An element [.] in the middle of a path is dropped by [Clean]. *)
Lemma Clean_dot_elem (a b : string) :
  a ≠ EmptyString →
  unix.Clean (a ++ "/" ++ "." ++ "/" ++ b) = unix.Clean (a ++ "/" ++ b).
Proof.
  intros Ha. destruct a as [|c a]; [done |].
  change ("/" ++ "." ++ "/" ++ b) with (String "/" (String "." (String "/" b))).
  change ("/" ++ b) with (String "/" b).
  unfold unix.Clean. rewrite !sapp_cons, <- !sapp_cons.
  rewrite !split_sep_app.
  change (String "." (String "/" b)) with ("." ++ String "/" b).
  rewrite split_sep_app, !fold_left_app. reflexivity.
Qed.

Lemma Dir_top_level (path : string) :
  ¬ In "/"%char (strings.chars path) → unix.Dir path = ".".
Proof.
  intros Hsep. unfold unix.Dir.
  assert (H : ∀ l, ¬ In "/"%char l → unix.drop_elem l = []).
  { induction l as [|c l IH]; simpl; [done |]. intros Hin.
    destruct (Ascii.eqb c "/") eqn:Hc.
    - apply Ascii.eqb_eq in Hc. subst c. tauto.
    - apply IH. tauto. }
  rewrite H; [done |]. by rewrite <- in_rev.
Qed.

Section TopLevel.
Context {W : Type} {sys : Sys W} {goos : GOOS}.

(** X18: with the path functions of Unix, a page at the top level of the
    site (no separator in its path) has its directory default and the
    site default in one and the same layout file: the second and the
    third key [lookUpTemplate] tries are equal, so the result is the
    page's own layout if there is one and [default.html] of the layouts
    directory otherwise. *)
Theorem lookUpTemplate_top_level (b : Builder) (path : string) :
  ¬ In "/"%char (strings.chars path) →
  @Join unix_paths [Layouts (config b); @Dir unix_paths path; "default.html"]
  = @Join unix_paths [Layouts (config b); "default.html"]
  ∧ @lookUpTemplate W sys unix_paths b path
    = match templateMap b !! @Join unix_paths [Layouts (config b); path] with
      | Some t => Ok t
      | None =>
          match templateMap b
                !! @Join unix_paths [Layouts (config b); "default.html"] with
          | Some t => Ok t
          | None => Err (errors_New "template not found")
          end
      end.
Proof.
  intros Hsep.
  assert (Hkey : @Join unix_paths
                   [Layouts (config b); @Dir unix_paths path; "default.html"]
                 = @Join unix_paths [Layouts (config b); "default.html"]).
  { simpl. rewrite (Dir_top_level path Hsep). unfold unix.Join.
    destruct (Layouts (config b)) as [|c l] eqn:Hl; [reflexivity |].
    simpl. unfold strings.Join. simpl.
    apply (Clean_dot_elem (String c l) "default.html"). done. }
  split; [done |]. unfold lookUpTemplate. rewrite Hkey.
  repeat case_match; congruence.
Qed.

End TopLevel.

(** [index.html] has no layout of its own in the site: it gets
    [layouts/default.html]. *)
Lemma lookUpTemplate_top_level_witness :
  lookUpTemplate site.builder "index.html" = Ok "<html>".
Proof.
  rewrite (proj2 (lookUpTemplate_top_level site.builder "index.html"
                    ltac:(vm_compute; intuition discriminate))).
  vm_refl.
Defined.

(** ** A site without pages *)

Section NoPages.
Context {W : Type} {sys : Sys W} {goos : GOOS} {fp : FilePath}.

Lemma run_no_tasks (b : Builder) (w : W) (s : run_state) :
  run_reaches b w [] s →
  tasks s = [] ∧ world s = w
  ∧ (returned s = None ∨ returned s = Some None).
Proof.
  unfold run_reaches. intros Hrtc.
  apply (rtc_ind_r (R := run_step b)
           (fun s => tasks s = [] ∧ world s = w
                     ∧ (returned s = None ∨ returned s = Some None))
           (run_init w [])); [by auto | | done].
  intros s1 s2 _ Hstep (Ht & Hw & Hr).
  destruct Hstep as
    [s1 i path w' Hp Hi Hr' | s1 i path e w' Hp Hi Hr' | s1 i path w' Hp Hi Hr'
    | s1 i e Hp Hi Hr' | s1 Hp Hc Hall | s1 Hp Hc Hr'];
    try (by rewrite Ht in Hi); simpl; auto.
Qed.

(** X19: when the discovery finds no Markdown file (or all are ignored),
    [Run] starts no rendering task, the channel is closed at once and
    [Run] returns nil; it cannot return anything else, and it leaves the
    world as the preparation left it. *)
Theorem Run_no_pages (fuel : nat) (b b' : Builder) (w w0 : W) :
  Run_prepare fuel b w = Some (Ok (b', []), w0) →
  Run_returns fuel b w None w0
  ∧ ∀ r w', Run_returns fuel b w r w' → r = None ∧ w' = w0.
Proof.
  intros Hprep. split.
  - pose (s1 := {| world := w0; tasks := []; closed := true;
                   returned := None; panicked := false |} : run_state).
    assert (Hs1 : run_step b' (run_init w0 []) s1)
      by (by apply (step_close b' (run_init w0 []))).
    exact (Run_tasks fuel b w b' [] w0 s1 _ None Hprep
             (rtc_once _ _ Hs1) eq_refl
             (step_range_end b' s1 eq_refl eq_refl eq_refl) eq_refl).
  - intros r w' Hret.
    destruct Hret as [e w' He | b1 files w1 s s' r Hp Hreach Hnone Hstep Hr].
    + congruence.
    + rewrite Hprep in Hp. injection Hp as <- <- <-.
      assert (Hreach' : run_reaches b' w0 [] s')
        by (unfold run_reaches in *; by eapply rtc_r).
      destruct (run_no_tasks _ _ _ Hreach') as (_ & Hw & [Hr' | Hr']);
        split; congruence.
Qed.

End NoPages.

(** A tree whose only Markdown file is the ignored [README.md]. *)
Lemma Run_no_pages_witness :
  ∃ w0, Run_returns 1 (NewBuilder site.cfg) site.empty None w0.
Proof.
  pose (r := Run_prepare 1 (NewBuilder site.cfg) site.empty).
  pose (w0 := match r with Some (_, w) => w | None => site.empty end).
  pose (b' := match r with
              | Some (Ok (b, _), _) => b
              | _ => NewBuilder site.cfg
              end).
  assert (H : Run_prepare 1 (NewBuilder site.cfg) site.empty
              = Some (Ok (b', []), w0)) by vm_refl.
  exists w0.
  exact (proj1 (Run_no_pages 1 (NewBuilder site.cfg) b' site.empty w0 H)).
Defined.
